(** * Valhalla market-making client: order translation and submission

    A shallow embedding of the TypeScript client (market orders, limit
    orders, cancellation, approvals, balances) and of the realtime send path,
    with the node and the Mangrove SDK as interfaces the client calls into.

    - [bigint] is [Z]; [number] is an IEEE-754 double, [spec_float];
    - an [Address] is the hex string viem hands out, compared as a string;
    - [await]ed code runs in the monad [M]: it threads the node's state and
      the trace of calls made, and carries a thrown exception;
    - [console.log] output is not modelled. *)

From Stdlib Require Import ZArith String List Bool Lia.
From Stdlib Require Import Floats.SpecFloat.
From Equations Require Import Equations.
From stdpp Require Import gmap strings list fin_maps.

Local Open Scope string_scope.
Local Open Scope Z_scope.
Local Open Scope list_scope.

(** ** Values *)

Abbreviation Address := string (only parsing).

(** A JavaScript [number]. *)
Abbreviation number := spec_float (only parsing).

Definition maxUint128 : Z := 2 ^ 128 - 1.
Definition maxUint256 : Z := 2 ^ 256 - 1.
Definition zeroAddress : Address := "0x0000000000000000000000000000000000000000".

(** [!x] on a number: [0], [-0] and [NaN] are falsy. *)
Definition js_falsy (x : number) : bool :=
  match x with
  | S754_zero _ | S754_nan => true
  | _ => false
  end.

(** [x <= 0] and [0 < x] on numbers. *)
Definition number_zero : number := S754_zero false.
Definition js_le0 (x : number) : bool := SFleb x number_zero.
Definition js_gt0 (x : number) : bool := SFltb number_zero x.

(** ** Exceptions and outcomes *)

Inductive Exn :=
| Error (message : string)      (* [throw new Error(message)] in the client *)
| TypeError (message : string)  (* a property read on [undefined] *)
| SdkError (message : string)   (* thrown inside [@mangrovedao/mgv] *)
| RpcError (message : string).  (* thrown by the transport *)

Inductive Outcome (A : Type) :=
| Returned (a : A)
| Thrown (e : Exn).
Arguments Returned {A} a.
Arguments Thrown {A} e.

Definition outcome_bind {A B} (o : Outcome A) (k : A -> Outcome B) : Outcome B :=
  match o with
  | Returned a => k a
  | Thrown e => Thrown e
  end.

Definition outcome_map {A B} (f : A -> B) (o : Outcome A) : Outcome B :=
  outcome_bind o (fun a => Returned (f a)).

Declare Scope outcome_scope.
Delimit Scope outcome_scope with outcome.
Notation "'let?' x := o 'in' k" := (outcome_bind o (fun x => k))
  (at level 10, x name, o at level 100, k at level 200) : outcome_scope.

(** ** Data model *)

Record Token := { address : Address; decimals : Z; symbol : string }.

Record MarketParams := { base : Token; quote : Token; tickSpacing : Z }.

Inductive BS := buy | sell.

(** The two order types the client documents. *)
Inductive Order := GTC | PO.

Record OLKey := { outbound_tkn : Address; inbound_tkn : Address; ol_tickSpacing : Z }.

Record SemibooksOLKeys := { asksMarket : OLKey; bidsMarket : OLKey }.

(** Book configurations are only passed through by the client. *)
Record LocalConfig := { local_packed : Z }.
Record GlobalConfig := { global_packed : Z }.
Record Book := { bidsConfig : LocalConfig; asksConfig : LocalConfig; marketConfig : GlobalConfig }.

(** [params] of the configuration module. *)
Record MangroveParams :=
  { mgv : Address; mgvOrder : Address; routerProxyFactory : Address;
    smartRouter : Address; mgvReader : Address }.

Definition params : MangroveParams :=
  {| mgv := "0x32360BB61fcb9cDCDD44eD44328b848061c0b9D7";
     mgvOrder := "0x981Bd234dA6778a6d0132364AfB30f517a9F5aa8";
     routerProxyFactory := "0x9DB89FB4B356D480139792Fa2146A408f8944E3a";
     smartRouter := "0x5edE1DD8029e59a0eF80CEB0474B3E8322490220";
     mgvReader := "0xB5C0a4249ee477860D47aD688386F2427F0F072a" |}.

(** *** Contract calls *)

#[local] Set Warnings "-register-all".
Inductive AbiValue :=
| VAddress (a : Address)
| VUint (n : Z)
| VInt (n : Z)
| VBool (b : bool)
| VTuple (vs : list AbiValue).

(** [{abi, functionName, args, value}]: what a builder returns and what is
    spread into [realtimeWriteContract] next to [address]. *)
Record ContractFunctionParameters :=
  { abi : string; functionName : string; args : list AbiValue; value : option Z }.

Definition erc20Abi : string := "erc20Abi".

(** [encodeFunctionData({abi, functionName, args})], kept symbolic: the
    encoding is taken to succeed. viem's encoder throws, before anything is
    prepared, on a value that does not fit its ABI type; a request that has
    been prepared is one whose encoding succeeded. *)
Record FunctionData :=
  { fd_abi : string; fd_functionName : string; fd_args : list AbiValue }.

Definition encodeFunctionData (p : ContractFunctionParameters) : FunctionData :=
  {| fd_abi := abi p; fd_functionName := functionName p; fd_args := args p |}.

(** The request handed to [prepareTransactionRequest]; the client leaves gas,
    fees and nonce unset on every call it makes. *)
Record TransactionRequest :=
  { to : Address; data : FunctionData; tx_value : option Z }.

(** What preparation fills in. *)
Record Envelope := { nonce : Z; gas : Z; chainId : Z }.

Record PreparedTransaction := { request : TransactionRequest; envelope : Envelope }.

(** The serialized signed transaction. *)
Record SignedTransaction := { signer : Address; signed : PreparedTransaction }.

Record Log := { log_address : Address; topics : list string; log_data : string }.

Inductive TxStatus := TxSuccess | TxReverted.

Record TransactionReceipt :=
  { status : TxStatus; logs : list Log; blockNumber : Z; transactionHash : string }.

Definition is_reverted (receipt : TransactionReceipt) : bool :=
  match status receipt with
  | TxReverted => true
  | TxSuccess => false
  end.

(** A read of the multicall batch: [{address, abi: erc20Abi, functionName, args}]. *)
Inductive ReadCall :=
| balanceOf (token owner : Address)
| allowance (token owner spender : Address).

(** *** SDK arguments and results *)

Record MarketOrderByTickArgs :=
  { mo_olKey : OLKey; mo_fillVolume : Z; mo_fillWants : bool; mo_maxTick : Z }.

Record RawLimitOrderArgs :=
  { lo_olKey : OLKey; lo_tick : Z; lo_restingOrderGasreq : Z;
    lo_localConfig : LocalConfig; lo_globalConfig : GlobalConfig;
    lo_fillVolume : Z; lo_fillWants : bool; lo_orderType : Order;
    lo_takerGivesLogic : Address; lo_takerWantsLogic : Address;
    lo_expiryDate : option Z; lo_value : option Z }.

Record RemoveOrderArgs := { ro_bs : BS; ro_offerId : Z; ro_deprovision : bool }.

Record MarketOrderResult :=
  { takerGot : Z; takerGave : Z; feePaid : Z; bounty : Z }.

Record RestingOffer :=
  { offer_id : Z; offer_tick : Z; offer_gives : Z; offer_wants : Z;
    offer_gasprice : Z; offer_gasreq : Z; offer_expiry : option Z }.

Record LimitOrderResult :=
  { lo_takerGot : Z; lo_takerGave : Z; lo_feePaid : Z; lo_bounty : Z;
    offer : option RestingOffer }.

Record RemoveOrderResult := { success : bool }.

Record MarketOrderLogsArgs := { mol_logs : list Log; mol_bs : BS; mol_taker : Address }.
Record LimitOrderLogsArgs := { lol_logs : list Log; lol_user : Address; lol_bs : BS }.
Record RemoveOrderLogsArgs := { rol_logs : list Log; rol_offerId : Z; rol_bs : BS }.

(** ** The collaborators *)

(** The library [@mangrovedao/mgv]: pure functions, any of which may throw. *)
Class Sdk := {
  MAX_TICK : Z;
  humanPriceToRawPrice : number -> MarketParams -> Outcome number;
  tickFromPrice : number -> Z -> Outcome Z;
  getSemibooksOLKeys : MarketParams -> SemibooksOLKeys;
  marketOrderByTickParams : MarketOrderByTickArgs -> Outcome ContractFunctionParameters;
  rawLimitOrderParams : RawLimitOrderArgs -> Outcome ContractFunctionParameters;
  removeOrderParams : MarketParams -> RemoveOrderArgs -> Outcome ContractFunctionParameters;
  marketOrderResultFromLogs :
    MangroveParams -> MarketParams -> MarketOrderLogsArgs -> Outcome MarketOrderResult;
  limitOrderResultFromLogs :
    MangroveParams -> MarketParams -> LimitOrderLogsArgs -> Outcome LimitOrderResult;
  removeOrderResultFromLogs :
    MangroveParams -> MarketParams -> RemoveOrderLogsArgs -> Outcome RemoveOrderResult;
}.

(** The wallet client and the node behind it, over a chain state [St].
    Reads leave the state alone; only the realtime send changes it. *)
Class Node (St : Type) := {
  account_address : Address;
  rpc_multicall : St -> list ReadCall -> Outcome (list Z);
  rpc_getUserRouter : St -> Address -> Outcome Address;
  rpc_getBook : St -> MarketParams -> Z -> Outcome Book;
  rpc_prepareTransactionRequest : St -> TransactionRequest -> Outcome Envelope;
  rpc_realtime_sendRawTransaction :
    St -> SignedTransaction -> Outcome TransactionReceipt * St;
}.

(** ** Traces *)

Inductive Decoder := DecodeMarketOrder | DecodeLimitOrder | DecodeRemoveOrder.

Inductive Event :=
| EvMulticall (contracts : list ReadCall)
| EvGetUserRouter (user : Address)
| EvGetBook (market : MarketParams) (depth : Z)
| EvPrepare (req : TransactionRequest)
| EvSendRaw (tx : SignedTransaction)
| EvDecode (decoder : Decoder) (receipt : TransactionReceipt).

Record World (St : Type) := { chain : St; trace : list Event }.
Arguments chain {St} w.
Arguments trace {St} w.

Definition record {St} (ev : Event) (w : World St) : World St :=
  {| chain := chain w; trace := trace w ++ [ev] |}.

(** The transactions handed to the realtime channel, one for each request. *)
Definition sent_of (ev : Event) : option SignedTransaction :=
  match ev with
  | EvSendRaw tx => Some tx
  | _ => None
  end.

Definition submitted (evs : list Event) : list SignedTransaction :=
  omap sent_of evs.

Definition is_decode (ev : Event) : bool :=
  match ev with
  | EvDecode _ _ => true
  | _ => false
  end.

Definition decoder_calls (evs : list Event) : list Event :=
  List.filter is_decode evs.

(** Calls that go over the network: everything but a decoder run. *)
Definition network_calls (evs : list Event) : list Event :=
  List.filter (fun ev => negb (is_decode ev)) evs.

(** ** The client *)

Record ApprovalProp := { ap_token : Address; ap_spender : Address }.

Record ApprovalResult :=
  { ar_token : Address; ar_spender : Address; ar_allowance : Z }.

Record MarketOrderProps :=
  { mop_market : MarketParams; mop_bs : BS; mop_fillVolume : Z;
    mop_fillWants : bool; mop_maxPrice : option number;
    mop_skipApprovalCheck : option bool }.

Record LimitOrderProps :=
  { lop_market : MarketParams; lop_bs : BS; lop_fillVolume : Z;
    lop_fillWants : bool; lop_price : number; lop_orderType : option Order;
    lop_skipApprovalCheck : option bool;
    lop_baseTokenLogic : option Address; lop_quoteTokenLogic : option Address;
    lop_userRouter : option Address; lop_book : option Book;
    lop_restingOrderGasreq : option Z; lop_expiryDate : option Z;
    lop_value : option Z }.

Record CancelLimitOrderProps :=
  { cop_market : MarketParams; cop_bs : BS; cop_offerId : Z;
    cop_deprovision : option bool }.

(** [array.map((x, index) => f(x, index))] with a callback that may throw. *)
Fixpoint js_map_from {A B} (f : A -> nat -> Outcome B) (index : nat) (xs : list A)
  : Outcome (list B) :=
  match xs with
  | [] => Returned []
  | x :: xs' =>
      outcome_bind (f x index) (fun y =>
      outcome_bind (js_map_from f (S index) xs') (fun ys =>
      Returned (y :: ys)))
  end.

Definition js_map {A B} (f : A -> nat -> Outcome B) (xs : list A) : Outcome (list B) :=
  js_map_from f 0%nat xs.

(** The loop [for (let i = 0; i < results.length; i += 2)]; a stored [None]
    is [undefined], what [results[i + 1]] is past the end. *)
Equations getBalances_loop (markets : list MarketParams) (results : list Z)
    (i : nat) (balances : gmap string (option Z))
  : Outcome (gmap string (option Z)) by wf (length results - i)%nat lt :=
  getBalances_loop markets results i balances with decide (i < length results)%nat := {
    | left _ =>
        match markets !! (i / 2)%nat with
        | None => Thrown (TypeError "market is undefined")
        | Some market =>
            let baseBalance := results !! i in
            let quoteBalance := results !! (i + 1)%nat in
            let balances := <[address (base market) := baseBalance]> balances in
            let balances := <[address (quote market) := quoteBalance]> balances in
            getBalances_loop markets results (i + 2)%nat balances
        end
    | right _ => Returned balances }.
Next Obligation. lia. Qed.

Section Client.
Context {St : Type} {node : Node St} {sdk : Sdk}.

(** *** Awaited code *)

Definition M (A : Type) : Type := World St -> Outcome A * World St.

Definition ret {A} (a : A) : M A := fun w => (Returned a, w).

Definition throw {A} (e : Exn) : M A := fun w => (Thrown e, w).

Definition bind {A B} (c : M A) (k : A -> M B) : M B :=
  fun w =>
    match c w with
    | (Returned a, w') => k a w'
    | (Thrown e, w') => (Thrown e, w')
    end.

(** A call into the SDK or other pure code, which returns or throws. *)
Definition call {A} (o : Outcome A) : M A := fun w => (o, w).

Notation "'let!' x := c 'in' k" := (bind c (fun x => k))
  (at level 10, x name, c at level 100, k at level 200).
Notation "'do!' c 'in' k" := (bind c (fun _ => k))
  (at level 10, c at level 100, k at level 200).

(** *** The node, as the client reaches it *)

Definition multicall (contracts : list ReadCall) : M (list Z) :=
  fun w => (rpc_multicall (chain w) contracts, record (EvMulticall contracts) w).

Definition getUserRouter (user : Address) : M Address :=
  fun w => (rpc_getUserRouter (chain w) user, record (EvGetUserRouter user) w).

Definition getBook (market : MarketParams) (depth : Z) : M Book :=
  fun w => (rpc_getBook (chain w) market depth, record (EvGetBook market depth) w).

Definition prepareTransactionRequest (req : TransactionRequest) : M PreparedTransaction :=
  fun w =>
    (outcome_map (fun env => {| request := req; envelope := env |})
       (rpc_prepareTransactionRequest (chain w) req),
     record (EvPrepare req) w).

(** Signing is local to the account. *)
Definition signTransaction (prepared : PreparedTransaction) : SignedTransaction :=
  {| signer := account_address; signed := prepared |}.

(** [client.request({method: "realtime_sendRawTransaction", params: [tx]})]:
    one request of the client, recorded once. How the transport delivers it
    (viem's [http()] may transmit the same signed transaction again after a
    transport failure) is on the node's side of the interface, as is the
    state it leaves. *)
Definition request_realtime_sendRawTransaction (tx : SignedTransaction)
  : M TransactionReceipt :=
  fun w =>
    let '(result, chain') := rpc_realtime_sendRawTransaction (chain w) tx in
    (result, {| chain := chain'; trace := trace w ++ [EvSendRaw tx] |}).

(** A decoder of the SDK run on a receipt. *)
Definition decode {A} (decoder : Decoder) (receipt : TransactionReceipt)
    (result : Outcome A) : M A :=
  fun w => (result, record (EvDecode decoder receipt) w).

(** *** config: [realtimeWriteContract]

    Encode, prepare, sign, send on the realtime channel, format the receipt. *)

Definition realtimeWriteContract (address : Address)
    (parameters : ContractFunctionParameters) : M TransactionReceipt :=
  let data := encodeFunctionData parameters in
  let! prepared := prepareTransactionRequest
                {| to := address; data := data; tx_value := value parameters |} in
  let serializedTransaction := signTransaction prepared in
  let! result := request_realtime_sendRawTransaction serializedTransaction in
  ret result.

(** *** approval *)

Definition getApprovals (props : list ApprovalProp) : M (list ApprovalResult) :=
  let! results := multicall
               (map (fun p => allowance (ap_token p) account_address (ap_spender p))
                    props) in
  call (js_map
          (fun allowance index =>
             match props !! index with
             | Some p =>
                 Returned {| ar_token := ap_token p; ar_spender := ap_spender p;
                             ar_allowance := allowance |}
             | None => Thrown (TypeError "props[index] is undefined")
             end)
          results).

Definition giveApprovalTo (token spender : Address) (amount : option Z)
  : M TransactionReceipt :=
  let amount := default maxUint256 amount in
  let! receipt := realtimeWriteContract token
               {| abi := erc20Abi; functionName := "approve";
                  args := [VAddress spender; VUint amount]; value := None |} in
  if is_reverted receipt then throw (Error "Approval failed")
  else ret receipt.

(** The approval check both order functions run: read the allowance of
    [checked], and below [maxUint128] approve [approved]. *)
Definition approvalCheck (token checked approved : Address) : M unit :=
  let! approvals := getApprovals [{| ap_token := token; ap_spender := checked |}] in
  match approvals with
  | [] => throw (TypeError "approval is undefined")
  | approval :: _ =>
      if ar_allowance approval <? maxUint128 then
        do! giveApprovalTo token approved None in
        ret tt
      else ret tt
  end.

(** *** balances *)

(** The batch [getBalances] reads: base then quote, market after market. *)
Definition balance_calls (markets : list MarketParams) : list ReadCall :=
  flat_map
    (fun market =>
       [balanceOf (address (base market)) account_address;
        balanceOf (address (quote market)) account_address])
    markets.

Definition getBalances (markets : list MarketParams) : M (gmap string (option Z)) :=
  let! results := multicall (balance_calls markets) in
  call (getBalances_loop markets results 0%nat ∅).

(** *** market-order *)

(** The closure that computes [maxTick] (l. 72-80). *)
Definition marketOrder_maxTick (market : MarketParams) (bs : BS)
    (maxPrice : option number) : Outcome Z :=
  match maxPrice with
  | None => Returned MAX_TICK
  | Some maxPrice =>
      if js_falsy maxPrice then Returned MAX_TICK
      else
        (* adjust for decimals *)
        (let? rawPrice := humanPriceToRawPrice maxPrice market in
         (* convert to tick *)
         let? tick := tickFromPrice rawPrice (tickSpacing market) in
         (* reverse tick on buy *)
         Returned (match bs with buy => - tick | sell => tick end))%outcome
  end.

(** The approval block (l. 82-91). *)
Definition marketOrder_approval (props : MarketOrderProps) : M unit :=
  let market := mop_market props in
  let bs := mop_bs props in
  let skipApprovalCheck := default false (mop_skipApprovalCheck props) in
  if negb skipApprovalCheck then
    let token := match bs with
                 | buy => address (quote market)
                 | sell => address (base market)
                 end in
    approvalCheck token (mgv params) (mgv params)
  else ret tt.

(** What [marketOrderByTickParams] is given. *)
Definition marketOrder_args (props : MarketOrderProps) (maxTick : Z)
  : MarketOrderByTickArgs :=
  let market := mop_market props in
  let bs := mop_bs props in
  let olKeys := getSemibooksOLKeys market in
  let olKey := match bs with
               | buy => asksMarket olKeys
               | sell => bidsMarket olKeys
               end in
  {| mo_olKey := olKey; mo_fillVolume := mop_fillVolume props;
     mo_fillWants := mop_fillWants props; mo_maxTick := maxTick |}.

(** Building the order call and sending it (l. 93-104). *)
Definition marketOrder_order (props : MarketOrderProps) (maxTick : Z)
  : M TransactionReceipt :=
  let! built := call (marketOrderByTickParams (marketOrder_args props maxTick)) in
  realtimeWriteContract (mgv params) built.

(** Up to the receipt of the order transaction. *)
Definition marketOrder_send (props : MarketOrderProps) : M TransactionReceipt :=
  let! maxTick := call (marketOrder_maxTick (mop_market props) (mop_bs props)
                          (mop_maxPrice props)) in
  do! marketOrder_approval props in
  marketOrder_order props maxTick.

(** From the receipt on (l. 106-120). *)
Definition marketOrder_settle (props : MarketOrderProps)
    (receipt : TransactionReceipt) : M (TransactionReceipt * MarketOrderResult) :=
  if is_reverted receipt then throw (Error "Market order failed")
  else
    let! result := decode DecodeMarketOrder receipt
                     (marketOrderResultFromLogs params (mop_market props)
                        {| mol_logs := logs receipt; mol_bs := mop_bs props;
                           mol_taker := account_address |}) in
    ret (receipt, result).

Definition marketOrder (props : MarketOrderProps)
  : M (TransactionReceipt * MarketOrderResult) :=
  let! receipt := marketOrder_send props in
  marketOrder_settle props receipt.

(** *** limit-order *)

(** The price to tick conversion of [limitOrder] (l. 121-127). *)
Definition limitOrder_tick (market : MarketParams) (bs : BS) (price : number)
  : Outcome Z :=
  (let? rawPrice := humanPriceToRawPrice price market in
   (* convert to tick *)
   let? tick := tickFromPrice rawPrice (tickSpacing market) in
   (* reverse tick on buy *)
   Returned (match bs with buy => - tick | sell => tick end))%outcome.

(** The approval block, once [userRouter] is known (l. 107-116). *)
Definition limitOrder_approval (props : LimitOrderProps) (userRouter : Address)
  : M unit :=
  let market := lop_market props in
  let bs := lop_bs props in
  let skipApprovalCheck := default false (lop_skipApprovalCheck props) in
  if negb skipApprovalCheck then
    let token := match bs with
                 | buy => address (quote market)
                 | sell => address (base market)
                 end in
    approvalCheck token userRouter (mgv params)
  else ret tt.

(** What [rawLimitOrderParams] is given. *)
Definition limitOrder_args (props : LimitOrderProps) (book : Book) (tick : Z)
  : RawLimitOrderArgs :=
  let market := lop_market props in
  let bs := lop_bs props in
  let orderType := default GTC (lop_orderType props) in
  let baseTokenLogic := default zeroAddress (lop_baseTokenLogic props) in
  let quoteTokenLogic := default zeroAddress (lop_quoteTokenLogic props) in
  let restingOrderGasreq := default 1000000 (lop_restingOrderGasreq props) in
  let olKeys := getSemibooksOLKeys market in
  let olKey := match bs with
               | buy => asksMarket olKeys
               | sell => bidsMarket olKeys
               end in
  {| lo_olKey := olKey; lo_tick := tick;
     lo_restingOrderGasreq := restingOrderGasreq;
     lo_localConfig := match bs with
                       | buy => bidsConfig book
                       | sell => asksConfig book
                       end;
     lo_globalConfig := marketConfig book;
     lo_fillVolume := lop_fillVolume props;
     lo_fillWants := lop_fillWants props;
     lo_orderType := orderType;
     lo_takerGivesLogic := match bs with
                           | buy => quoteTokenLogic
                           | sell => baseTokenLogic
                           end;
     lo_takerWantsLogic := match bs with
                           | buy => baseTokenLogic
                           | sell => quoteTokenLogic
                           end;
     lo_expiryDate := lop_expiryDate props;
     lo_value := lop_value props |}.

(** Converting the price, building the order call and sending it
    (l. 118-147). *)
Definition limitOrder_order (props : LimitOrderProps) (book : Book)
  : M TransactionReceipt :=
  let! tick := call (limitOrder_tick (lop_market props) (lop_bs props)
                       (lop_price props)) in
  let! rawParams := call (rawLimitOrderParams (limitOrder_args props book tick)) in
  realtimeWriteContract (mgvOrder params) rawParams.

(** What runs before the price is looked at: the defaults that are
    fetched and the approval block (l. 88-116). *)
Definition limitOrder_begin (props : LimitOrderProps) : M Book :=
  let! userRouter := match lop_userRouter props with
                     | Some userRouter => ret userRouter
                     | None => getUserRouter account_address
                     end in
  let! book := match lop_book props with
               | Some book => ret book
               | None => getBook (lop_market props) 1
               end in
  do! limitOrder_approval props userRouter in
  ret book.

(** Up to the receipt of the order transaction. *)
Definition limitOrder_send (props : LimitOrderProps) : M TransactionReceipt :=
  let! book := limitOrder_begin props in
  limitOrder_order props book.

Definition limitOrder_settle (props : LimitOrderProps)
    (receipt : TransactionReceipt) : M (TransactionReceipt * LimitOrderResult) :=
  if is_reverted receipt then throw (Error "Limit order failed")
  else
    let! result := decode DecodeLimitOrder receipt
                     (limitOrderResultFromLogs params (lop_market props)
                        {| lol_logs := logs receipt; lol_user := account_address;
                           lol_bs := lop_bs props |}) in
    ret (receipt, result).

Definition limitOrder (props : LimitOrderProps)
  : M (TransactionReceipt * LimitOrderResult) :=
  let! receipt := limitOrder_send props in
  limitOrder_settle props receipt.

Definition cancelLimitOrder_send (props : CancelLimitOrderProps)
  : M TransactionReceipt :=
  let deprovision := default true (cop_deprovision props) in
  let! rawParams := call (removeOrderParams (cop_market props)
                            {| ro_bs := cop_bs props; ro_offerId := cop_offerId props;
                               ro_deprovision := deprovision |}) in
  realtimeWriteContract (mgvOrder params) rawParams.

Definition cancelLimitOrder_settle (props : CancelLimitOrderProps)
    (receipt : TransactionReceipt) : M (TransactionReceipt * RemoveOrderResult) :=
  if is_reverted receipt then throw (Error "Limit order cancellation failed")
  else
    let! result := decode DecodeRemoveOrder receipt
                     (removeOrderResultFromLogs params (cop_market props)
                        {| rol_logs := logs receipt; rol_offerId := cop_offerId props;
                           rol_bs := cop_bs props |}) in
    ret (receipt, result).

Definition cancelLimitOrder (props : CancelLimitOrderProps)
  : M (TransactionReceipt * RemoveOrderResult) :=
  let! receipt := cancelLimitOrder_send props in
  cancelLimitOrder_settle props receipt.

End Client.

Arguments M St A : clear implicits.

(** ** Notions the statements use *)

Definition write_request (address : Address) (p : ContractFunctionParameters)
  : TransactionRequest :=
  {| to := address; data := encodeFunctionData p; tx_value := value p |}.

(** The request of [approve(spender, amount)] on [token]. *)
Definition approve_request (token spender : Address) (amount : Z) : TransactionRequest :=
  write_request token
    {| abi := erc20Abi; functionName := "approve";
       args := [VAddress spender; VUint amount]; value := None |}.

(** The token a market order or a limit order spends. *)
Definition spent_token (market : MarketParams) (bs : BS) : Address :=
  match bs with
  | buy => address (quote market)
  | sell => address (base market)
  end.

(** A token of the market. *)
Definition has_token (a : string) (market : MarketParams) : Prop :=
  a = address (base market) \/ a = address (quote market).

(** The position of the result a market's token gets. *)
Definition result_index (k : nat) (market : MarketParams) (a : string) : nat :=
  if decide (a = address (quote market)) then (2 * k + 1)%nat else (2 * k)%nat.

(** The map after the markets [ms], whose results are the front of [rs]. *)
Fixpoint filled (ms : list MarketParams) (rs : list Z)
    (balances : gmap string (option Z)) : gmap string (option Z) :=
  match ms with
  | [] => balances
  | market :: ms' =>
      filled ms' (drop 2 rs)
        (<[address (quote market) := rs !! 1%nat]>
           (<[address (base market) := rs !! 0%nat]> balances))
  end.

(** Code that runs no decoder. *)
Definition undecoded {St A} (c : M St A) : Prop :=
  forall w, decoder_calls (trace (snd (c w))) = decoder_calls (trace w).

(** The batch [getApprovals] reads: one allowance for each pair. *)
Definition approval_reads {St} {node : Node St} (props : list ApprovalProp)
  : list ReadCall :=
  map (fun p => allowance (ap_token p) account_address (ap_spender p)) props.

(** A pair with the allowance read for it. *)
Definition approval_result (p : ApprovalProp) (a : Z) : ApprovalResult :=
  {| ar_token := ap_token p; ar_spender := ap_spender p; ar_allowance := a |}.

(** Code all of whose calls, in the order made, are calls [P] allows. *)
Definition emits {St A} (P : Event -> Prop) (c : M St A) : Prop :=
  forall w, exists evs, trace (snd (c w)) = trace w ++ evs /\ Forall P evs.

(** Code that makes at most [n] send requests. *)
Definition sends_at_most {St A} (n : nat) (c : M St A) : Prop :=
  forall w, exists evs,
    trace (snd (c w)) = trace w ++ evs /\ (length (submitted evs) <= n)%nat.

(** The calls [marketOrder] may make: the allowance read and the approval
    of [params.mgv] unless the check is skipped, the order to [params.mgv],
    its own decoder. *)
Definition marketOrder_call {St} {node : Node St} (props : MarketOrderProps)
    (ev : Event) : Prop :=
  let token := spent_token (mop_market props) (mop_bs props) in
  let checked := negb (default false (mop_skipApprovalCheck props)) in
  match ev with
  | EvMulticall contracts =>
      checked = true /\ contracts = [allowance token account_address (mgv params)]
  | EvPrepare req =>
      (checked = true /\ req = approve_request token (mgv params) maxUint256)
      \/ to req = mgv params
  | EvSendRaw tx =>
      signer tx = account_address
      /\ ((checked = true
           /\ request (signed tx) = approve_request token (mgv params) maxUint256)
          \/ to (request (signed tx)) = mgv params)
  | EvDecode decoder _ => decoder = DecodeMarketOrder
  | _ => False
  end.

(** The calls [limitOrder] may make. *)
Definition limitOrder_call {St} {node : Node St} (props : LimitOrderProps)
    (ev : Event) : Prop :=
  let token := spent_token (lop_market props) (lop_bs props) in
  let checked := negb (default false (lop_skipApprovalCheck props)) in
  match ev with
  | EvGetUserRouter user => lop_userRouter props = None /\ user = account_address
  | EvGetBook market depth =>
      lop_book props = None /\ market = lop_market props /\ depth = 1
  | EvMulticall contracts =>
      checked = true
      /\ exists userRouter, contracts = [allowance token account_address userRouter]
  | EvPrepare req =>
      (checked = true /\ req = approve_request token (mgv params) maxUint256)
      \/ to req = mgvOrder params
  | EvSendRaw tx =>
      signer tx = account_address
      /\ ((checked = true
           /\ request (signed tx) = approve_request token (mgv params) maxUint256)
          \/ to (request (signed tx)) = mgvOrder params)
  | EvDecode decoder _ => decoder = DecodeLimitOrder
  end.

(** The calls [cancelLimitOrder] may make. *)
Definition cancelLimitOrder_call {St} {node : Node St} (ev : Event) : Prop :=
  match ev with
  | EvPrepare req => to req = mgvOrder params
  | EvSendRaw tx =>
      signer tx = account_address /\ to (request (signed tx)) = mgvOrder params
  | EvDecode decoder _ => decoder = DecodeRemoveOrder
  | _ => False
  end.

(** The transactions a call may send: two with the approval check, one
    without. *)
Definition order_budget (skipApprovalCheck : option bool) : nat :=
  if default false skipApprovalCheck then 1%nat else 2%nat.

(** [x < 0] on numbers. *)
Definition js_lt0 (x : number) : bool := SFltb x number_zero.

(** The conversion both order functions run on a price, before the side
    decides the sign: [humanPriceToRawPrice], then [tickFromPrice]. *)
Definition sdk_price_to_tick {sdk : Sdk} (market : MarketParams) (price : number)
  : Outcome Z :=
  outcome_bind (humanPriceToRawPrice price market) (fun rawPrice =>
  tickFromPrice rawPrice (tickSpacing market)).

(** The defaults of [limitOrder] (l. 100-101): the router, then the book,
    each asked of the node when not given. *)
Definition limitOrder_resolve {St} {node : Node St} (props : LimitOrderProps)
  : M St (Address * Book) :=
  bind (match lop_userRouter props with
        | Some userRouter => ret userRouter
        | None => getUserRouter account_address
        end) (fun userRouter =>
  bind (match lop_book props with
        | Some book => ret book
        | None => getBook (lop_market props) 1
        end) (fun book =>
  ret (userRouter, book))).

(** [props] with another [maxPrice]. *)
Definition with_maxPrice (props : MarketOrderProps) (maxPrice : option number)
  : MarketOrderProps :=
  {| mop_market := mop_market props; mop_bs := mop_bs props;
     mop_fillVolume := mop_fillVolume props; mop_fillWants := mop_fillWants props;
     mop_maxPrice := maxPrice;
     mop_skipApprovalCheck := mop_skipApprovalCheck props |}.

(** ** Test doubles

    A ledger that plays the node and a coarse stand-in for the SDK, to run
    the client on concrete inputs. *)

Module Fake.

Definition account : Address := "0xf39Fd6e51aad88F6F4ce6aB8827279cffFb92266".

Record Ledger :=
  { allowances : gmap (string * string) Z; (* (token, spender) to allowance *)
    erc20_balances : gmap string Z;
    user_router : Address;
    book : Book;
    reverting : list string;               (* function names that revert *)
    emitted : list Log;                    (* logs of a successful order *)
    next_nonce : Z }.

Definition read (s : Ledger) (c : ReadCall) : Z :=
  match c with
  | balanceOf token owner =>
      if String.eqb owner account then default 0 (erc20_balances s !! token) else 0
  | allowance token owner spender =>
      if String.eqb owner account then default 0 (allowances s !! (token, spender))
      else 0
  end.

Definition mined (s : Ledger) (allowances' : gmap (string * string) Z) : Ledger :=
  {| allowances := allowances'; erc20_balances := erc20_balances s;
     user_router := user_router s; book := book s; reverting := reverting s;
     emitted := emitted s; next_nonce := next_nonce s + 1 |}.

Definition receipt_of (s : Ledger) (st : TxStatus) (ls : list Log) (fn : string)
  : TransactionReceipt :=
  {| status := st; logs := ls; blockNumber := next_nonce s; transactionHash := fn |}.

(** ERC-20 [approve] sets the allowance; any other call emits [emitted]. *)
Definition execute (s : Ledger) (tx : SignedTransaction)
  : Outcome TransactionReceipt * Ledger :=
  let req := request (signed tx) in
  let fn := fd_functionName (data req) in
  if existsb (String.eqb fn) (reverting s) then
    (Returned (receipt_of s TxReverted [] fn), mined s (allowances s))
  else if String.eqb fn "approve" then
    match fd_args (data req) with
    | [VAddress spender; VUint amount] =>
        (Returned (receipt_of s TxSuccess [] fn),
         mined s (<[(to req, spender) := amount]> (allowances s)))
    | _ => (Returned (receipt_of s TxReverted [] fn), mined s (allowances s))
    end
  else (Returned (receipt_of s TxSuccess (emitted s) fn), mined s (allowances s)).

Definition envelope_at (s : Ledger) : Envelope :=
  {| nonce := next_nonce s; gas := 1000000; chainId := 6342 |}.

Definition node : Node Ledger :=
  {| account_address := account;
     rpc_multicall := fun s contracts => Returned (map (read s) contracts);
     rpc_getUserRouter := fun s _ => Returned (user_router s);
     rpc_getBook := fun s _ _ => Returned (book s);
     rpc_prepareTransactionRequest := fun s _ => Returned (envelope_at s);
     rpc_realtime_sendRawTransaction := execute |}.

(** The request as the account signs it on the ledger [s]. *)
Definition signed_at (s : Ledger) (req : TransactionRequest) : SignedTransaction :=
  {| signer := account; signed := {| request := req; envelope := envelope_at s |} |}.

(** [price * 10 ** d], rounded down, on the mantissa and exponent. *)
Definition scale10 (price : number) (d : Z) : number :=
  match price with
  | S754_finite s m e =>
      if 0 <=? d then
        match Z.pos m * 5 ^ d with
        | Z.pos m' => S754_finite s m' (e + d)
        | _ => S754_zero s
        end
      else
        match Z.pos m * 2 ^ 64 / 5 ^ (- d) with
        | Z.pos m' => S754_finite s m' (e + d - 64)
        | _ => S754_zero s
        end
  | other => other
  end.

(** A tick about [log price / log 1.0001], from the binary logarithm, on
    the grid of [spacing]; not a number, zero and negatives throw. *)
Definition coarse_tick (price : number) (spacing : Z) : Outcome Z :=
  match price with
  | S754_finite false m e =>
      Returned (6932 * (Z.log2 (Z.pos m) + e) / spacing * spacing)
  | _ => Thrown (SdkError "RangeError: price has no tick")
  end.

Definition olKey_value (k : OLKey) : AbiValue :=
  VTuple [VAddress (outbound_tkn k); VAddress (inbound_tkn k); VUint (ol_tickSpacing k)].

Definition has_event (name : string) (ls : list Log) : bool :=
  existsb (fun l => match topics l with
                    | t :: _ => String.eqb t name
                    | [] => false
                    end) ls.

Definition market_call (a : MarketOrderByTickArgs) : ContractFunctionParameters :=
  {| abi := "MangroveABI"; functionName := "marketOrderByTick";
     args := [olKey_value (mo_olKey a); VInt (mo_maxTick a);
              VUint (mo_fillVolume a); VBool (mo_fillWants a)];
     value := None |}.

Definition limit_call (a : RawLimitOrderArgs) : ContractFunctionParameters :=
  {| abi := "MangroveOrderABI"; functionName := "take";
     args := [olKey_value (lo_olKey a); VInt (lo_tick a);
              VUint (lo_fillVolume a); VBool (lo_fillWants a);
              VUint (lo_restingOrderGasreq a);
              VAddress (lo_takerGivesLogic a);
              VAddress (lo_takerWantsLogic a)];
     value := lo_value a |}.

Definition remove_call (a : RemoveOrderArgs) : ContractFunctionParameters :=
  {| abi := "MangroveOrderABI"; functionName := "retractOffer";
     args := [VUint (ro_offerId a); VBool (ro_deprovision a)];
     value := None |}.

Definition sdk : Sdk :=
  {| MAX_TICK := 887272;
     humanPriceToRawPrice := fun price market =>
       Returned (scale10 price (decimals (quote market) - decimals (base market)));
     tickFromPrice := coarse_tick;
     getSemibooksOLKeys := fun market =>
       {| asksMarket := {| outbound_tkn := address (base market);
                           inbound_tkn := address (quote market);
                           ol_tickSpacing := tickSpacing market |};
          bidsMarket := {| outbound_tkn := address (quote market);
                           inbound_tkn := address (base market);
                           ol_tickSpacing := tickSpacing market |} |};
     marketOrderByTickParams := fun a => Returned (market_call a);
     rawLimitOrderParams := fun a => Returned (limit_call a);
     removeOrderParams := fun _ a => Returned (remove_call a);
     marketOrderResultFromLogs := fun _ _ a =>
       if has_event "OrderComplete" (mol_logs a) then
         Returned {| takerGot := 0; takerGave := 0; feePaid := 0; bounty := 0 |}
       else Thrown (SdkError "no order result in the logs");
     limitOrderResultFromLogs := fun _ _ a =>
       if has_event "MangroveOrderComplete" (lol_logs a) then
         Returned {| lo_takerGot := 0; lo_takerGave := 0; lo_feePaid := 0;
                     lo_bounty := 0; offer := None |}
       else Thrown (SdkError "no order result in the logs");
     removeOrderResultFromLogs := fun _ _ a =>
       Returned {| success := has_event "OfferRetract" (rol_logs a) |} |}.

Definition MEGA_USDC : MarketParams :=
  {| base := {| address := "0xMEGA"; decimals := 18; symbol := "MEGA" |};
     quote := {| address := "0xUSDC"; decimals := 6; symbol := "USDC" |};
     tickSpacing := 1 |}.

Definition WETH_USDC : MarketParams :=
  {| base := {| address := "0xWETH"; decimals := 18; symbol := "WETH" |};
     quote := {| address := "0xUSDC"; decimals := 6; symbol := "USDC" |};
     tickSpacing := 1 |}.

Definition empty_book : Book :=
  {| bidsConfig := {| local_packed := 0 |}; asksConfig := {| local_packed := 0 |};
     marketConfig := {| global_packed := 0 |} |}.

(** A fresh account: no allowance given, a router of its own. *)
Definition genesis : Ledger :=
  {| allowances := ∅; erc20_balances := ∅; user_router := "0xROUTER";
     book := empty_book; reverting := []; emitted := []; next_nonce := 0 |}.

Definition start (s : Ledger) : World Ledger := {| chain := s; trace := [] |}.

(** The price [100]. *)
Definition price_100 : number := S754_finite false 25 2.

(** The price [2 ** 200] and the price [-100]. *)
Definition price_huge : number := S754_finite false 1 200.
Definition price_negative : number := S754_finite true 25 2.

Definition event (name : string) : Log :=
  {| log_address := mgv params; topics := [name]; log_data := "0x" |}.

(** A ledger whose orders settle, one whose orders revert, and one that
    holds balances. *)
Definition trading : Ledger :=
  {| allowances := ∅; erc20_balances := ∅; user_router := "0xROUTER";
     book := empty_book; reverting := [];
     emitted := [event "OrderComplete"; event "MangroveOrderComplete"];
     next_nonce := 0 |}.

Definition failing : Ledger :=
  {| allowances := ∅; erc20_balances := ∅; user_router := "0xROUTER";
     book := empty_book; reverting := ["marketOrderByTick"; "take"; "retractOffer"];
     emitted := []; next_nonce := 0 |}.

Definition funded : Ledger :=
  {| allowances := ∅;
     erc20_balances := <["0xMEGA" := 5]> (<["0xWETH" := 7]> (<["0xUSDC" := 11]> ∅));
     user_router := "0xROUTER"; book := empty_book; reverting := [];
     emitted := []; next_nonce := 0 |}.

Definition market_order (bs : BS) (maxPrice : option number) (skip : bool)
  : MarketOrderProps :=
  {| mop_market := MEGA_USDC; mop_bs := bs; mop_fillVolume := 10;
     mop_fillWants := true; mop_maxPrice := maxPrice;
     mop_skipApprovalCheck := Some skip |}.

Definition limit_order (bs : BS) (price : number) (skip : bool) : LimitOrderProps :=
  {| lop_market := MEGA_USDC; lop_bs := bs; lop_fillVolume := 10;
     lop_fillWants := false; lop_price := price; lop_orderType := None;
     lop_skipApprovalCheck := Some skip; lop_baseTokenLogic := None;
     lop_quoteTokenLogic := None; lop_userRouter := None; lop_book := None;
     lop_restingOrderGasreq := None; lop_expiryDate := None; lop_value := None |}.

Definition cancel_order (offerId : Z) : CancelLimitOrderProps :=
  {| cop_market := MEGA_USDC; cop_bs := buy; cop_offerId := offerId;
     cop_deprovision := None |}.

(** Nodes that misbehave: a batch that answers [answer] of what the ledger
    holds, a node that cannot prepare, one that cannot send, one that cannot
    resolve a router. *)
Definition node_answering (answer : list Z -> list Z) : Node Ledger :=
  {| account_address := account;
     rpc_multicall := fun s contracts => Returned (answer (map (read s) contracts));
     rpc_getUserRouter := fun s _ => Returned (user_router s);
     rpc_getBook := fun s _ _ => Returned (book s);
     rpc_prepareTransactionRequest := fun s _ => Returned (envelope_at s);
     rpc_realtime_sendRawTransaction := execute |}.



Definition node_unrouted : Node Ledger :=
  {| account_address := account;
     rpc_multicall := fun s contracts => Returned (map (read s) contracts);
     rpc_getUserRouter := fun _ _ => Thrown (RpcError "no router");
     rpc_getBook := fun s _ _ => Returned (book s);
     rpc_prepareTransactionRequest := fun s _ => Returned (envelope_at s);
     rpc_realtime_sendRawTransaction := execute |}.

(** Ledgers: USDC approved to [params.mgv]; MEGA approved to the router;
    approvals that revert. *)
Definition approved : Ledger :=
  {| allowances := <[("0xUSDC", mgv params) := maxUint256]> ∅; erc20_balances := ∅;
     user_router := "0xROUTER"; book := empty_book; reverting := [];
     emitted := []; next_nonce := 0 |}.

Definition routed : Ledger :=
  {| allowances := <[("0xMEGA", "0xROUTER") := maxUint256]> ∅; erc20_balances := ∅;
     user_router := "0xROUTER"; book := empty_book; reverting := [];
     emitted := []; next_nonce := 0 |}.

Definition unapproving : Ledger :=
  {| allowances := ∅; erc20_balances := ∅; user_router := "0xROUTER";
     book := empty_book; reverting := ["approve"]; emitted := []; next_nonce := 0 |}.

Definition two_pairs : list ApprovalProp :=
  [{| ap_token := "0xUSDC"; ap_spender := mgv params |};
   {| ap_token := "0xMEGA"; ap_spender := mgv params |}].

(** A limit order with its router and its book given. *)
Definition limit_order_given (bs : BS) (price : number) (skip : bool)
  : LimitOrderProps :=
  {| lop_market := MEGA_USDC; lop_bs := bs; lop_fillVolume := 10;
     lop_fillWants := false; lop_price := price; lop_orderType := None;
     lop_skipApprovalCheck := Some skip; lop_baseTokenLogic := None;
     lop_quoteTokenLogic := None; lop_userRouter := Some "0xROUTER";
     lop_book := Some empty_book; lop_restingOrderGasreq := None;
     lop_expiryDate := None; lop_value := None |}.

(** A ledger with USDC approved to [params.mgv] whose orders settle. *)
Definition settled : Ledger :=
  {| allowances := <[("0xUSDC", mgv params) := maxUint256]> ∅; erc20_balances := ∅;
     user_router := "0xROUTER"; book := empty_book; reverting := [];
     emitted := [event "OrderComplete"]; next_nonce := 0 |}.

End Fake.

(** ** What a write and the approval check do *)

Section Facts.
Context {St : Type} {node : Node St} {sdk : Sdk}.

Lemma record_trace ev (w : World St) : trace (record ev w) = trace w ++ [ev].
Proof. reflexivity. Qed.

Lemma record_chain ev (w : World St) : chain (record ev w) = chain w.
Proof. reflexivity. Qed.

(** A write prepares the request and, when that succeeds, signs it and
    sends it on the realtime channel; the receipt is what the node answers. *)
Lemma realtimeWriteContract_run address p (w : World St) :
  realtimeWriteContract address p w =
    let req := write_request address p in
    match rpc_prepareTransactionRequest (chain w) req with
    | Thrown e => (Thrown e, record (EvPrepare req) w)
    | Returned env =>
        let tx := signTransaction {| request := req; envelope := env |} in
        (fst (rpc_realtime_sendRawTransaction (chain w) tx),
         {| chain := snd (rpc_realtime_sendRawTransaction (chain w) tx);
            trace := trace w ++ [EvPrepare req; EvSendRaw tx] |})
    end.
Proof.
  unfold realtimeWriteContract, bind, prepareTransactionRequest,
    request_realtime_sendRawTransaction, ret, write_request; cbn.
  destruct (rpc_prepareTransactionRequest _ _) as [env|e]; cbn; [|reflexivity].
  destruct (rpc_realtime_sendRawTransaction _ _) as [[receipt|e] s']; cbn;
    rewrite <- app_assoc; reflexivity.
Qed.

(** One pair asked, one allowance answered. *)
Lemma getApprovals_one token spender a (w : World St) :
  rpc_multicall (chain w) [allowance token account_address spender] = Returned [a] ->
  getApprovals [{| ap_token := token; ap_spender := spender |}] w =
    (Returned [{| ar_token := token; ar_spender := spender; ar_allowance := a |}],
     record (EvMulticall [allowance token account_address spender]) w).
Proof.
  intros Hread. unfold getApprovals, bind, multicall, call; cbn.
  rewrite Hread; reflexivity.
Qed.

Lemma giveApprovalTo_run token spender (w : World St) :
  giveApprovalTo token spender None w =
    let req := approve_request token spender maxUint256 in
    match rpc_prepareTransactionRequest (chain w) req with
    | Thrown e => (Thrown e, record (EvPrepare req) w)
    | Returned env =>
        let tx := signTransaction {| request := req; envelope := env |} in
        (match fst (rpc_realtime_sendRawTransaction (chain w) tx) with
         | Returned receipt =>
             if is_reverted receipt then Thrown (Error "Approval failed")
             else Returned receipt
         | Thrown e => Thrown e
         end,
         {| chain := snd (rpc_realtime_sendRawTransaction (chain w) tx);
            trace := trace w ++ [EvPrepare req; EvSendRaw tx] |})
    end.
Proof.
  unfold giveApprovalTo, bind. rewrite realtimeWriteContract_run.
  unfold approve_request; cbn.
  destruct (rpc_prepareTransactionRequest _ _) as [env|e]; [|reflexivity].
  destruct (fst (rpc_realtime_sendRawTransaction _ _)) as [receipt|e]; [|reflexivity].
  destruct (is_reverted receipt); reflexivity.
Qed.

Lemma approvalCheck_enough token checked approved a (w : World St) :
  rpc_multicall (chain w) [allowance token account_address checked] = Returned [a] ->
  maxUint128 <= a ->
  approvalCheck token checked approved w
    = (Returned tt, record (EvMulticall [allowance token account_address checked]) w).
Proof.
  intros Hread Hge. unfold approvalCheck, bind.
  rewrite (getApprovals_one _ _ a) by assumption. cbn.
  destruct (Z.ltb_spec a maxUint128) as [Hlt|_]; [lia|reflexivity].
Qed.

Lemma approvalCheck_short token checked approved a (w : World St) :
  rpc_multicall (chain w) [allowance token account_address checked] = Returned [a] ->
  a < maxUint128 ->
  approvalCheck token checked approved w
    = let asked := record (EvMulticall [allowance token account_address checked]) w in
      (outcome_map (fun _ => tt) (fst (giveApprovalTo token approved None asked)),
       snd (giveApprovalTo token approved None asked)).
Proof.
  intros Hread Hlt. unfold approvalCheck, bind.
  rewrite (getApprovals_one _ _ a) by assumption. cbn.
  destruct (Z.ltb_spec a maxUint128) as [_|Hge]; [|lia].
  destruct (giveApprovalTo _ _ _ _) as [[receipt|e] w1]; reflexivity.
Qed.

Lemma marketOrder_approval_check props :
  default false (mop_skipApprovalCheck props) = false ->
  marketOrder_approval props
    = approvalCheck (spent_token (mop_market props) (mop_bs props))
        (mgv params) (mgv params).
Proof. intros Hskip. unfold marketOrder_approval. rewrite Hskip. reflexivity. Qed.

Lemma limitOrder_approval_check props userRouter :
  default false (lop_skipApprovalCheck props) = false ->
  limitOrder_approval props userRouter
    = approvalCheck (spent_token (lop_market props) (lop_bs props))
        userRouter (mgv params).
Proof. intros Hskip. unfold limitOrder_approval. rewrite Hskip. reflexivity. Qed.

(** C4. In [marketOrder], for the token the order spends and the spender
    [params.mgv]: the approval block reads that spender's allowance; at or
    above [maxUint128] it does nothing more; below, it sends one
    [approve(spender, maxUint256)] to the token, for the same spender, and has
    its receipt (failing on a revert) before the order block starts. *)
Theorem approval_gate_raises_once props (w : World St) (a : Z) :
  let token := spent_token (mop_market props) (mop_bs props) in
  let spender := mgv params in
  let query := EvMulticall [allowance token account_address spender] in
  let req := approve_request token spender maxUint256 in
  default false (mop_skipApprovalCheck props) = false ->
  rpc_multicall (chain w) [allowance token account_address spender] = Returned [a] ->
  (maxUint128 <= a ->
   marketOrder_approval props w = (Returned tt, record query w))
  /\ (a < maxUint128 ->
      forall env result s',
        rpc_prepareTransactionRequest (chain w) req = Returned env ->
        rpc_realtime_sendRawTransaction (chain w)
          (signTransaction {| request := req; envelope := env |}) = (result, s') ->
        marketOrder_approval props w
          = (match result with
             | Returned receipt =>
                 if is_reverted receipt then Thrown (Error "Approval failed")
                 else Returned tt
             | Thrown e => Thrown e
             end,
             {| chain := s';
                trace := trace w ++
                  [query; EvPrepare req;
                   EvSendRaw (signTransaction {| request := req; envelope := env |})] |}))
  /\ (forall maxTick,
        marketOrder_maxTick (mop_market props) (mop_bs props) (mop_maxPrice props)
          = Returned maxTick ->
        marketOrder_send props w
          = match marketOrder_approval props w with
            | (Returned _, w1) => marketOrder_order props maxTick w1
            | (Thrown e, w1) => (Thrown e, w1)
            end).
Proof.
  intros token spender query req Hskip Hread.
  rewrite (marketOrder_approval_check props Hskip). fold token spender.
  split; [|split].
  - intros Hge. apply (approvalCheck_enough _ _ _ a); assumption.
  - intros Hlt env result s' Hprep Hsent.
    rewrite (approvalCheck_short _ _ _ a) by assumption. cbn zeta.
    rewrite giveApprovalTo_run. cbn zeta. rewrite record_chain. fold req.
    rewrite Hprep, Hsent. cbn.
    rewrite <- app_assoc. cbn.
    destruct result as [receipt|e]; [|reflexivity].
    destruct (is_reverted receipt); reflexivity.
  - intros maxTick Htick. unfold marketOrder_send, bind, call.
    rewrite Htick, (marketOrder_approval_check props Hskip).
    destruct (approvalCheck _ _ _ w) as [[[]|e] w1]; reflexivity.
Qed.

(** A check that returns has read exactly one allowance. *)
Lemma approvalCheck_returned token checked approved (w w1 : World St) :
  approvalCheck token checked approved w = (Returned tt, w1) ->
  exists a, rpc_multicall (chain w) [allowance token account_address checked]
            = Returned [a].
Proof.
  unfold approvalCheck, bind, getApprovals, multicall, call; cbn.
  destruct (rpc_multicall _ _) as [[|a [|b results]]|e]; cbn; try discriminate.
  intros _. exists a; reflexivity.
Qed.

End Facts.

(** ** Running the approval check twice *)

Section Erc20.
Context {St : Type} {node : Node St} {sdk : Sdk}.

(** ERC-20 on the node: once [approve(spender, amount)] on [token] has been
    mined without reverting, the allowance read back for that spender is
    [amount]. *)
Hypothesis approve_sets_allowance :
  forall s env token spender amount receipt s',
    rpc_realtime_sendRawTransaction s
      (signTransaction {| request := approve_request token spender amount;
                          envelope := env |}) = (Returned receipt, s') ->
    is_reverted receipt = false ->
    rpc_multicall s' [allowance token account_address spender] = Returned [amount].

(** When the spender whose allowance is read is the spender approved, as in
    [marketOrder], a second check right after a first only reads. *)
Lemma approvalCheck_same_spender_twice token spender (w w1 : World St) :
  approvalCheck token spender spender w = (Returned tt, w1) ->
  approvalCheck token spender spender w1
    = (Returned tt, record (EvMulticall [allowance token account_address spender]) w1).
Proof.
  intros Hfirst. destruct (approvalCheck_returned _ _ _ _ _ Hfirst) as [a Hread].
  destruct (Z.lt_ge_cases a maxUint128) as [Hlt|Hge].
  - rewrite (approvalCheck_short _ _ _ a) in Hfirst by assumption. cbn zeta in Hfirst.
    rewrite giveApprovalTo_run in Hfirst. cbn zeta in Hfirst.
    rewrite record_chain in Hfirst.
    destruct (rpc_prepareTransactionRequest _ _) as [env|e]; [|discriminate].
    cbn in Hfirst.
    destruct (rpc_realtime_sendRawTransaction _ _) as [[receipt|e] s'] eqn:Hsent;
      [|discriminate].
    cbn in Hfirst. destruct (is_reverted receipt) eqn:Hrev; [discriminate|].
    injection Hfirst as <-.
    apply (approvalCheck_enough _ _ _ maxUint256); cbn.
    + eapply approve_sets_allowance; eassumption.
    + unfold maxUint128, maxUint256. lia.
  - rewrite (approvalCheck_enough _ _ _ a) in Hfirst by assumption.
    injection Hfirst as <-.
    apply (approvalCheck_enough _ _ _ a); assumption.
Qed.

(** X20. In [marketOrder], on such a node, the approval block run again
    right after it has returned returns again and sends nothing: whatever the
    first run approved, the second finds approved. *)
Lemma marketOrder_approval_twice props (w w1 : World St) :
  marketOrder_approval props w = (Returned tt, w1) ->
  exists w2, marketOrder_approval props w1 = (Returned tt, w2)
             /\ submitted (trace w2) = submitted (trace w1).
Proof.
  unfold marketOrder_approval.
  destruct (default false (mop_skipApprovalCheck props)); cbn.
  - intros _. exists w1. split; reflexivity.
  - intros Hfirst. eexists. split.
    + eapply approvalCheck_same_spender_twice. eassumption.
    + unfold submitted. rewrite record_trace, omap_app. cbn. apply app_nil_r.
Qed.

(** ... and leaves the allowances of the other spenders as they were. *)
Hypothesis approve_keeps_others :
  forall s env token spender amount receipt s' other,
    rpc_realtime_sendRawTransaction s
      (signTransaction {| request := approve_request token spender amount;
                          envelope := env |}) = (Returned receipt, s') ->
    other <> spender ->
    rpc_multicall s' [allowance token account_address other]
      = rpc_multicall s [allowance token account_address other].

(** When the spender read is not the spender approved, as in [limitOrder]
    with a router that is not [params.mgv], a first check that approved leaves
    the allowance read where it was, and the second check approves again. *)
Lemma approvalCheck_other_spender_twice token checked approved a env
    (w w1 : World St) :
  checked <> approved ->
  rpc_multicall (chain w) [allowance token account_address checked] = Returned [a] ->
  a < maxUint128 ->
  approvalCheck token checked approved w = (Returned tt, w1) ->
  rpc_prepareTransactionRequest (chain w1)
    (approve_request token approved maxUint256) = Returned env ->
  submitted (trace (snd (approvalCheck token checked approved w1)))
    = submitted (trace w1)
        ++ [signTransaction
              {| request := approve_request token approved maxUint256;
                 envelope := env |}].
Proof.
  intros Hne Hread Hlt Hfirst Hprep.
  assert (rpc_multicall (chain w1) [allowance token account_address checked]
          = Returned [a]) as Hread1.
  { rewrite (approvalCheck_short _ _ _ a) in Hfirst by assumption.
    cbn zeta in Hfirst. rewrite giveApprovalTo_run in Hfirst. cbn zeta in Hfirst.
    rewrite record_chain in Hfirst.
    destruct (rpc_prepareTransactionRequest _ _) as [env0|e]; [|discriminate].
    cbn in Hfirst.
    destruct (rpc_realtime_sendRawTransaction _ _) as [[receipt|e] s'] eqn:Hsent;
      [|discriminate].
    cbn in Hfirst. destruct (is_reverted receipt); [discriminate|].
    injection Hfirst as <-. cbn.
    rewrite (approve_keeps_others _ _ _ _ _ _ _ checked Hsent Hne). exact Hread. }
  rewrite (approvalCheck_short _ _ _ a) by assumption. cbn zeta.
  rewrite giveApprovalTo_run. cbn zeta. rewrite record_chain, Hprep. cbn.
  unfold submitted. rewrite <- app_assoc, !omap_app. cbn. reflexivity.
Qed.

End Erc20.

(** The ledger is such a node. *)
Lemma ledger_approve_keeps_others :
  forall s env token spender amount receipt s' other,
    @rpc_realtime_sendRawTransaction _ Fake.node s
      (@signTransaction _ Fake.node
         {| request := approve_request token spender amount; envelope := env |})
      = (Returned receipt, s') ->
    other <> spender ->
    @rpc_multicall _ Fake.node s' [allowance token (@account_address _ Fake.node) other]
      = @rpc_multicall _ Fake.node s [allowance token (@account_address _ Fake.node) other].
Proof.
  intros s env token spender amount receipt s' other. cbn. unfold Fake.execute. cbn.
  destruct (existsb _ _).
  - intros [= <- <-] _. reflexivity.
  - intros [= <- <-] Hne. cbn. rewrite lookup_insert_ne by congruence. reflexivity.
Qed.

Lemma ledger_approve_sets_allowance :
  forall s env token spender amount receipt s',
    @rpc_realtime_sendRawTransaction _ Fake.node s
      (@signTransaction _ Fake.node
         {| request := approve_request token spender amount; envelope := env |})
      = (Returned receipt, s') ->
    is_reverted receipt = false ->
    @rpc_multicall _ Fake.node s' [allowance token (@account_address _ Fake.node) spender]
      = Returned [amount].
Proof.
  intros s env token spender amount receipt s'. cbn. unfold Fake.execute. cbn.
  destruct (existsb _ _).
  - intros [= <- <-]. discriminate.
  - intros [= <- <-] _. cbn. rewrite lookup_insert_eq. reflexivity.
Qed.

(** ** Reverted receipts *)

Section Receipts.
Context {St : Type} {node : Node St} {sdk : Sdk}.

Lemma undecoded_ret {A} (a : A) : undecoded (St:=St) (ret a).
Proof. intros w; reflexivity. Qed.

Lemma undecoded_throw {A} e : undecoded (@throw St A e).
Proof. intros w; reflexivity. Qed.

Lemma undecoded_call {A} (o : Outcome A) : undecoded (St:=St) (call o).
Proof. intros w; reflexivity. Qed.

Lemma undecoded_bind {A B} (c : M St A) (k : A -> M St B) :
  undecoded c -> (forall a, undecoded (k a)) -> undecoded (bind c k).
Proof.
  intros Hc Hk w. unfold bind. specialize (Hc w).
  destruct (c w) as [[a|e] w1]; cbn in *; [rewrite Hk|]; assumption.
Qed.

Lemma decoder_calls_snoc evs ev :
  is_decode ev = false -> decoder_calls (evs ++ [ev]) = decoder_calls evs.
Proof.
  intros Hev. unfold decoder_calls. rewrite List.filter_app; cbn.
  rewrite Hev. apply app_nil_r.
Qed.

Lemma undecoded_multicall contracts : undecoded (multicall contracts).
Proof. intros w. apply decoder_calls_snoc. reflexivity. Qed.

Lemma undecoded_getUserRouter user : undecoded (getUserRouter user).
Proof. intros w. apply decoder_calls_snoc. reflexivity. Qed.

Lemma undecoded_getBook market depth : undecoded (getBook market depth).
Proof. intros w. apply decoder_calls_snoc. reflexivity. Qed.

Lemma undecoded_prepare req : undecoded (prepareTransactionRequest req).
Proof. intros w. apply decoder_calls_snoc. reflexivity. Qed.

Lemma undecoded_sendRaw tx : undecoded (request_realtime_sendRawTransaction tx).
Proof.
  intros w. unfold request_realtime_sendRawTransaction.
  destruct (rpc_realtime_sendRawTransaction _ _) as [result s']; cbn.
  apply decoder_calls_snoc. reflexivity.
Qed.

Create HintDb undecoded.
#[local] Hint Resolve undecoded_ret undecoded_throw undecoded_call undecoded_multicall
  undecoded_getUserRouter undecoded_getBook undecoded_prepare undecoded_sendRaw
  : undecoded.

Ltac undecoded_steps :=
  repeat first
    [ apply undecoded_bind; [|intros ?]
    | progress auto with undecoded
    | match goal with
      | |- undecoded (if ?b then _ else _) => destruct b
      | |- undecoded (match ?x with _ => _ end) => destruct x
      end ].

Lemma undecoded_realtimeWriteContract address p :
  undecoded (realtimeWriteContract address p).
Proof. unfold realtimeWriteContract. undecoded_steps. Qed.

Lemma undecoded_approvalCheck token checked approved :
  undecoded (approvalCheck token checked approved).
Proof.
  pose proof undecoded_realtimeWriteContract.
  unfold approvalCheck, getApprovals, giveApprovalTo. undecoded_steps.
Qed.

Lemma undecoded_marketOrder_send props : undecoded (marketOrder_send props).
Proof.
  pose proof undecoded_realtimeWriteContract. pose proof undecoded_approvalCheck.
  unfold marketOrder_send, marketOrder_approval, marketOrder_order. undecoded_steps.
Qed.

Lemma undecoded_limitOrder_send props : undecoded (limitOrder_send props).
Proof.
  pose proof undecoded_realtimeWriteContract. pose proof undecoded_approvalCheck.
  unfold limitOrder_send, limitOrder_begin, limitOrder_approval, limitOrder_order.
  undecoded_steps.
Qed.

Lemma undecoded_cancelLimitOrder_send props : undecoded (cancelLimitOrder_send props).
Proof.
  pose proof undecoded_realtimeWriteContract.
  unfold cancelLimitOrder_send. undecoded_steps.
Qed.

(** Settling a reverted receipt throws and touches nothing; settling any
    other receipt runs the decoder on it and hands back what it gives. *)
Lemma marketOrder_settle_run props receipt (w : World St) :
  marketOrder_settle props receipt w =
    if is_reverted receipt then (Thrown (Error "Market order failed"), w)
    else (outcome_map (pair receipt)
            (marketOrderResultFromLogs params (mop_market props)
               {| mol_logs := logs receipt; mol_bs := mop_bs props;
                  mol_taker := account_address |}),
          record (EvDecode DecodeMarketOrder receipt) w).
Proof.
  unfold marketOrder_settle, bind, decode, throw, ret.
  destruct (is_reverted receipt); [reflexivity|].
  destruct (marketOrderResultFromLogs _ _ _); reflexivity.
Qed.

Lemma limitOrder_settle_run props receipt (w : World St) :
  limitOrder_settle props receipt w =
    if is_reverted receipt then (Thrown (Error "Limit order failed"), w)
    else (outcome_map (pair receipt)
            (limitOrderResultFromLogs params (lop_market props)
               {| lol_logs := logs receipt; lol_user := account_address;
                  lol_bs := lop_bs props |}),
          record (EvDecode DecodeLimitOrder receipt) w).
Proof.
  unfold limitOrder_settle, bind, decode, throw, ret.
  destruct (is_reverted receipt); [reflexivity|].
  destruct (limitOrderResultFromLogs _ _ _); reflexivity.
Qed.

Lemma cancelLimitOrder_settle_run props receipt (w : World St) :
  cancelLimitOrder_settle props receipt w =
    if is_reverted receipt then (Thrown (Error "Limit order cancellation failed"), w)
    else (outcome_map (pair receipt)
            (removeOrderResultFromLogs params (cop_market props)
               {| rol_logs := logs receipt; rol_offerId := cop_offerId props;
                  rol_bs := cop_bs props |}),
          record (EvDecode DecodeRemoveOrder receipt) w).
Proof.
  unfold cancelLimitOrder_settle, bind, decode, throw, ret.
  destruct (is_reverted receipt); [reflexivity|].
  destruct (removeOrderResultFromLogs _ _ _); reflexivity.
Qed.

Lemma undecoded_upto {A} (c : M St A) (w w1 : World St) (o : Outcome A) :
  undecoded c -> c w = (o, w1) -> decoder_calls (trace w1) = decoder_calls (trace w).
Proof. intros Hc Hrun. specialize (Hc w). rewrite Hrun in Hc. exact Hc. Qed.

(** C3. In [marketOrder], [limitOrder] and [cancelLimitOrder]: once the order
    transaction has a receipt, a reverted one makes the function throw its
    failure error there and then, with no decoder run since the call began;
    any other receipt is given to the decoder, and the receipt with the
    decoded result is what the function returns. *)
Theorem reverted_receipt_is_never_decoded :
  (forall props (w w1 : World St) receipt,
      marketOrder_send props w = (Returned receipt, w1) ->
      (is_reverted receipt = true ->
       marketOrder props w = (Thrown (Error "Market order failed"), w1)
       /\ decoder_calls (trace w1) = decoder_calls (trace w))
      /\ (is_reverted receipt = false ->
          marketOrder props w
            = (outcome_map (pair receipt)
                 (marketOrderResultFromLogs params (mop_market props)
                    {| mol_logs := logs receipt; mol_bs := mop_bs props;
                       mol_taker := account_address |}),
               record (EvDecode DecodeMarketOrder receipt) w1)))
  /\ (forall props (w w1 : World St) receipt,
      limitOrder_send props w = (Returned receipt, w1) ->
      (is_reverted receipt = true ->
       limitOrder props w = (Thrown (Error "Limit order failed"), w1)
       /\ decoder_calls (trace w1) = decoder_calls (trace w))
      /\ (is_reverted receipt = false ->
          limitOrder props w
            = (outcome_map (pair receipt)
                 (limitOrderResultFromLogs params (lop_market props)
                    {| lol_logs := logs receipt; lol_user := account_address;
                       lol_bs := lop_bs props |}),
               record (EvDecode DecodeLimitOrder receipt) w1)))
  /\ (forall props (w w1 : World St) receipt,
      cancelLimitOrder_send props w = (Returned receipt, w1) ->
      (is_reverted receipt = true ->
       cancelLimitOrder props w
         = (Thrown (Error "Limit order cancellation failed"), w1)
       /\ decoder_calls (trace w1) = decoder_calls (trace w))
      /\ (is_reverted receipt = false ->
          cancelLimitOrder props w
            = (outcome_map (pair receipt)
                 (removeOrderResultFromLogs params (cop_market props)
                    {| rol_logs := logs receipt; rol_offerId := cop_offerId props;
                       rol_bs := cop_bs props |}),
               record (EvDecode DecodeRemoveOrder receipt) w1))).
Proof.
  split; [|split]; intros props w w1 receipt Hsend.
  - split; intros Hrev.
    + split.
      * unfold marketOrder, bind. rewrite Hsend, marketOrder_settle_run, Hrev.
        reflexivity.
      * eapply undecoded_upto; [apply undecoded_marketOrder_send|eassumption].
    + unfold marketOrder, bind. rewrite Hsend, marketOrder_settle_run, Hrev.
      reflexivity.
  - split; intros Hrev.
    + split.
      * unfold limitOrder, bind. rewrite Hsend, limitOrder_settle_run, Hrev.
        reflexivity.
      * eapply undecoded_upto; [apply undecoded_limitOrder_send|eassumption].
    + unfold limitOrder, bind. rewrite Hsend, limitOrder_settle_run, Hrev.
      reflexivity.
  - split; intros Hrev.
    + split.
      * unfold cancelLimitOrder, bind.
        rewrite Hsend, cancelLimitOrder_settle_run, Hrev. reflexivity.
      * eapply undecoded_upto; [apply undecoded_cancelLimitOrder_send|eassumption].
    + unfold cancelLimitOrder, bind.
      rewrite Hsend, cancelLimitOrder_settle_run, Hrev. reflexivity.
Qed.

End Receipts.

(** ** Prices and ticks on the way to the channel *)

Section Prices.
Context {St : Type} {node : Node St} {sdk : Sdk}.

Lemma marketOrder_order_run props maxTick (w : World St) :
  marketOrder_order props maxTick w =
    match marketOrderByTickParams (marketOrder_args props maxTick) with
    | Returned built => realtimeWriteContract (mgv params) built w
    | Thrown e => (Thrown e, w)
    end.
Proof.
  unfold marketOrder_order, bind, call.
  destruct (marketOrderByTickParams _); reflexivity.
Qed.

Lemma js_gt0_truthy (price : number) : js_gt0 price = true -> js_falsy price = false.
Proof. destruct price as [[]|[]| |[] m e]; cbn; congruence. Qed.

Lemma limitOrder_order_run props book (w : World St) :
  limitOrder_order props book w =
    match limitOrder_tick (lop_market props) (lop_bs props) (lop_price props) with
    | Thrown e => (Thrown e, w)
    | Returned tick =>
        match rawLimitOrderParams (limitOrder_args props book tick) with
        | Returned built => realtimeWriteContract (mgvOrder params) built w
        | Thrown e => (Thrown e, w)
        end
    end.
Proof.
  unfold limitOrder_order, bind, call.
  destruct (limitOrder_tick _ _ _) as [tick|e]; [|reflexivity].
  destruct (rawLimitOrderParams _); reflexivity.
Qed.

Lemma submitted_snoc evs ev :
  submitted (evs ++ [ev]) = submitted evs ++ from_option (fun tx => [tx]) [] (sent_of ev).
Proof.
  unfold submitted. rewrite omap_app. cbn. destruct (sent_of ev); reflexivity.
Qed.

(** A write whose preparation succeeds puts its transaction on the channel. *)
Lemma realtimeWriteContract_submits address p env (w : World St) :
  rpc_prepareTransactionRequest (chain w) (write_request address p) = Returned env ->
  submitted (trace (snd (realtimeWriteContract address p w)))
    = submitted (trace w)
        ++ [signTransaction {| request := write_request address p; envelope := env |}].
Proof.
  intros Hprep. rewrite realtimeWriteContract_run. cbn zeta. rewrite Hprep. cbn.
  change [EvPrepare ?a; EvSendRaw ?b] with ([EvPrepare a] ++ [EvSendRaw b]).
  rewrite app_assoc, !submitted_snoc. cbn. rewrite app_nil_r. reflexivity.
Qed.

(** Settling sends nothing. *)
Lemma marketOrder_settle_submits props receipt (w : World St) :
  submitted (trace (snd (marketOrder_settle props receipt w))) = submitted (trace w).
Proof.
  rewrite marketOrder_settle_run. destruct (is_reverted receipt); [reflexivity|].
  cbn. rewrite submitted_snoc. apply app_nil_r.
Qed.

Lemma limitOrder_settle_submits props receipt (w : World St) :
  submitted (trace (snd (limitOrder_settle props receipt w))) = submitted (trace w).
Proof.
  rewrite limitOrder_settle_run. destruct (is_reverted receipt); [reflexivity|].
  cbn. rewrite submitted_snoc. apply app_nil_r.
Qed.

Lemma bind_submitted {A B} (c : M St A) (k : A -> M St B) (w : World St) :
  (forall a w1, submitted (trace (snd (k a w1))) = submitted (trace w1)) ->
  submitted (trace (snd (bind c k w))) = submitted (trace (snd (c w))).
Proof.
  intros Hk. unfold bind. destruct (c w) as [[a|e] w1]; cbn; [apply Hk|reflexivity].
Qed.

(** C2. For every market and every price above zero, the tick of a buy is
    the negation of the tick of a sell at that price (and the two fail
    alike when the conversion throws), in [marketOrder] and in [limitOrder]. *)
Theorem buy_tick_negates_sell_tick (market : MarketParams) (price : number) :
  js_gt0 price = true ->
  marketOrder_maxTick market buy (Some price)
    = outcome_map Z.opp (marketOrder_maxTick market sell (Some price))
  /\ limitOrder_tick market buy price
    = outcome_map Z.opp (limitOrder_tick market sell price).
Proof.
  intros Hpos. apply js_gt0_truthy in Hpos.
  unfold marketOrder_maxTick, limitOrder_tick. rewrite Hpos.
  destruct (humanPriceToRawPrice price market) as [rawPrice|e]; cbn; [|done].
  destruct (tickFromPrice rawPrice (tickSpacing market)) as [tick|e]; done.
Qed.

(** C9. A market order without [maxPrice] runs with [maxTick = MAX_TICK],
    buy or sell: the order sent is the one built from [MAX_TICK]. *)
Theorem unbounded_market_order_uses_MAX_TICK props (w : World St) receipt w' :
  mop_maxPrice props = None ->
  marketOrder_send props w = (Returned receipt, w') ->
  marketOrder_maxTick (mop_market props) (mop_bs props) (mop_maxPrice props)
    = Returned MAX_TICK
  /\ exists built env,
      marketOrderByTickParams (marketOrder_args props MAX_TICK) = Returned built
      /\ mo_maxTick (marketOrder_args props MAX_TICK) = MAX_TICK
      /\ last (trace w')
         = Some (EvSendRaw (signTransaction
                              {| request := write_request (mgv params) built;
                                 envelope := env |})).
Proof.
  intros Hnone Hsend. rewrite Hnone. split; [reflexivity|].
  unfold marketOrder_send, bind, call in Hsend. rewrite Hnone in Hsend.
  cbn [marketOrder_maxTick] in Hsend.
  destruct (marketOrder_approval props w) as [[[]|e] w1]; [|discriminate].
  rewrite marketOrder_order_run in Hsend.
  destruct (marketOrderByTickParams _) as [built|e]; [|discriminate].
  rewrite realtimeWriteContract_run in Hsend; cbn in Hsend.
  destruct (rpc_prepareTransactionRequest _ _) as [env|e]; [|discriminate].
  exists built, env. split; [reflexivity|]. split; [reflexivity|].
  injection Hsend as _ <-. cbn.
  change [EvPrepare ?a; EvSendRaw ?b] with ([EvPrepare a] ++ [EvSendRaw b]).
  rewrite app_assoc, last_snoc. reflexivity.
Qed.

(** C6, as the client has it. No range is checked on the way: the tick the
    conversion gives, whatever its size, is the tick of the order built, and
    once the approval block has returned, the builder has accepted it and the
    node has prepared it, that order is sent on the channel. *)
Theorem computed_tick_is_sent_unchecked :
  (forall props (w w1 : World St) tick built env,
      marketOrder_maxTick (mop_market props) (mop_bs props) (mop_maxPrice props)
        = Returned tick ->
      marketOrder_approval props w = (Returned tt, w1) ->
      marketOrderByTickParams (marketOrder_args props tick) = Returned built ->
      rpc_prepareTransactionRequest (chain w1) (write_request (mgv params) built)
        = Returned env ->
      mo_maxTick (marketOrder_args props tick) = tick
      /\ submitted (trace (snd (marketOrder props w)))
         = submitted (trace w1)
             ++ [signTransaction {| request := write_request (mgv params) built;
                                    envelope := env |}])
  /\ (forall props (w w1 : World St) book tick built env,
      limitOrder_tick (lop_market props) (lop_bs props) (lop_price props)
        = Returned tick ->
      limitOrder_begin props w = (Returned book, w1) ->
      rawLimitOrderParams (limitOrder_args props book tick) = Returned built ->
      rpc_prepareTransactionRequest (chain w1) (write_request (mgvOrder params) built)
        = Returned env ->
      lo_tick (limitOrder_args props book tick) = tick
      /\ submitted (trace (snd (limitOrder props w)))
         = submitted (trace w1)
             ++ [signTransaction {| request := write_request (mgvOrder params) built;
                                    envelope := env |}]).
Proof.
  split.
  - intros props w w1 tick built env Htick Hgate Hbuilt Hprep.
    split; [reflexivity|].
    unfold marketOrder. rewrite bind_submitted by apply marketOrder_settle_submits.
    unfold marketOrder_send, bind, call. rewrite Htick, Hgate.
    rewrite marketOrder_order_run, Hbuilt.
    apply realtimeWriteContract_submits; assumption.
  - intros props w w1 book tick built env Htick Hbegin Hbuilt Hprep.
    split; [reflexivity|].
    unfold limitOrder. rewrite bind_submitted by apply limitOrder_settle_submits.
    unfold limitOrder_send, bind. rewrite Hbegin.
    rewrite limitOrder_order_run, Htick, Hbuilt.
    apply realtimeWriteContract_submits; assumption.
Qed.

(** A [maxPrice] of zero or NaN is read by [marketOrder] as no [maxPrice]. *)
Lemma falsy_maxPrice_reads_as_absent market bs price :
  js_falsy price = true ->
  marketOrder_maxTick market bs (Some price) = marketOrder_maxTick market bs None.
Proof. intros Hfalsy. unfold marketOrder_maxTick. rewrite Hfalsy. reflexivity. Qed.

(** A conversion that throws makes the function throw the same: [marketOrder]
    with no call made, [limitOrder] in the world its fetched defaults and its
    approval block have left. *)
Lemma conversion_failure_is_rethrown :
  (forall props (w : World St) e,
      marketOrder_maxTick (mop_market props) (mop_bs props) (mop_maxPrice props)
        = Thrown e ->
      marketOrder props w = (Thrown e, w))
  /\ (forall props (w w1 : World St) book e,
      limitOrder_tick (lop_market props) (lop_bs props) (lop_price props)
        = Thrown e ->
      limitOrder_begin props w = (Returned book, w1) ->
      limitOrder props w = (Thrown e, w1)).
Proof.
  split.
  - intros props w e Htick.
    unfold marketOrder, marketOrder_send, bind, call. rewrite Htick. reflexivity.
  - intros props w w1 book e Htick Hbegin.
    unfold limitOrder, limitOrder_send, bind. rewrite Hbegin.
    rewrite limitOrder_order_run, Htick. reflexivity.
Qed.

Lemma js_lt0_le0_truthy (price : number) :
  js_lt0 price = true -> js_le0 price = true /\ js_falsy price = false.
Proof. destruct price as [[]|[]| |[] m e]; cbn; intros H; try discriminate; auto. Qed.

Lemma limitOrder_tick_conversion market bs price :
  limitOrder_tick market bs price
    = outcome_map (fun tick => match bs with buy => - tick | sell => tick end)
        (sdk_price_to_tick market price).
Proof.
  unfold limitOrder_tick, sdk_price_to_tick.
  destruct (humanPriceToRawPrice price market) as [rawPrice|e]; cbn; [|reflexivity].
  destruct (tickFromPrice rawPrice (tickSpacing market)); reflexivity.
Qed.

(** C5, as the client has it. The client has no check of its own and no
    error of its own for a price: it is the conversion of the SDK that
    refuses a price at or below zero. Given that it does, for every
    [maxPrice] below zero [marketOrder] fails with the error of the conversion
    and has made no call; for every price at or below zero [limitOrder] fails
    with it too, but in the world its fetched defaults and its approval block
    have left, since it converts the price after them. *)
Theorem nonpositive_price_fails_in_the_conversion :
  (forall market price,
      js_le0 price = true -> exists e, sdk_price_to_tick market price = Thrown e) ->
  (forall props (w : World St) price,
      mop_maxPrice props = Some price ->
      js_lt0 price = true ->
      exists e,
        sdk_price_to_tick (mop_market props) price = Thrown e
        /\ marketOrder props w = (Thrown e, w))
  /\ (forall props (w w1 : World St) book,
      js_le0 (lop_price props) = true ->
      limitOrder_begin props w = (Returned book, w1) ->
      exists e,
        sdk_price_to_tick (lop_market props) (lop_price props) = Thrown e
        /\ limitOrder props w = (Thrown e, w1)).
Proof.
  intros Hsdk. destruct conversion_failure_is_rethrown as (Hmarket & Hlimit). split.
  - intros props w price Hprice Hneg.
    apply js_lt0_le0_truthy in Hneg as [Hle Htruthy].
    destruct (Hsdk (mop_market props) price Hle) as [e He].
    exists e. split; [assumption|]. apply Hmarket.
    rewrite Hprice. unfold marketOrder_maxTick. rewrite Htruthy.
    fold (limitOrder_tick (mop_market props) (mop_bs props) price).
    rewrite limitOrder_tick_conversion, He. reflexivity.
  - intros props w w1 book Hle Hbegin.
    destruct (Hsdk (lop_market props) (lop_price props) Hle) as [e He].
    exists e. split; [assumption|]. apply (Hlimit props w w1 book); [|assumption].
    rewrite limitOrder_tick_conversion, He. reflexivity.
Qed.

End Prices.

(** ** Balances *)

Lemma getBalances_loop_step markets results i (balances : gmap string (option Z)) :
  getBalances_loop markets results i balances =
    if decide (i < length results)%nat then
      match markets !! (i / 2)%nat with
      | None => Thrown (TypeError "market is undefined")
      | Some market =>
          getBalances_loop markets results (i + 2)%nat
            (<[address (quote market) := results !! (i + 1)%nat]>
               (<[address (base market) := results !! i]> balances))
      end
    else Returned balances.
Proof.
  rewrite getBalances_loop_equation_1.
  destruct (decide (i < length results)%nat); reflexivity.
Qed.

(** With two results for each market the loop never meets [undefined]: from
    the market [k] on it fills the map with what is left. *)
Lemma getBalances_loop_filled markets results :
  length results = (2 * length markets)%nat ->
  forall n k balances,
    (k + n = length markets)%nat ->
    getBalances_loop markets results (2 * k)%nat balances
      = Returned (filled (drop k markets) (drop (2 * k) results) balances).
Proof.
  intros Hlen n. induction n as [|n IH]; intros k balances Hk.
  - rewrite getBalances_loop_step.
    destruct (decide _) as [Hlt|_]; [lia|].
    rewrite drop_ge by lia. reflexivity.
  - rewrite getBalances_loop_step.
    destruct (decide _) as [_|Hge]; [|lia].
    assert (2 * k / 2 = k)%nat as -> by (rewrite Nat.mul_comm; apply Nat.div_mul; lia).
    destruct (markets !! k) as [market|] eqn:Hmarket.
    + replace (2 * k + 2)%nat with (2 * S k)%nat by lia.
      rewrite IH by lia.
      rewrite (drop_S markets market k Hmarket). cbn [filled].
      rewrite !lookup_drop, drop_drop.
      replace (2 * k + 0)%nat with (2 * k)%nat by lia.
      replace (2 * k + 2)%nat with (2 * S k)%nat by lia.
      reflexivity.
    + apply lookup_ge_None in Hmarket. lia.
Qed.

Lemma filled_other ms : forall rs balances a,
  (forall market, market ∈ ms -> ~ has_token a market) ->
  filled ms rs balances !! a = balances !! a.
Proof.
  induction ms as [|market ms IH]; intros rs balances a Hnone; [reflexivity|].
  cbn. rewrite IH.
  - assert (~ has_token a market) as Hm by (apply Hnone; left).
    unfold has_token in Hm.
    rewrite !lookup_insert_ne by (intros <-; tauto). reflexivity.
  - intros market' Hin. apply Hnone. right; assumption.
Qed.

Lemma filled_keys ms : forall rs balances a,
  is_Some (filled ms rs balances !! a) ->
  is_Some (balances !! a) \/ exists market, market ∈ ms /\ has_token a market.
Proof.
  induction ms as [|market ms IH]; intros rs balances a Hsome; [left; assumption|].
  cbn in Hsome. apply IH in Hsome as [Hsome|(market' & Hin & Htok)].
  - destruct (decide (a = address (quote market))) as [->|Hq].
    { right. exists market. split; [left|right; reflexivity]. }
    destruct (decide (a = address (base market))) as [->|Hb].
    { right. exists market. split; [left|left; reflexivity]. }
    rewrite !lookup_insert_ne in Hsome by congruence. left; assumption.
  - right. exists market'. split; [right; assumption|assumption].
Qed.

Lemma filled_last ms : forall rs balances k market a,
  ms !! k = Some market ->
  has_token a market ->
  (forall j market', (k < j)%nat -> ms !! j = Some market' -> ~ has_token a market') ->
  filled ms rs balances !! a = Some (rs !! result_index k market a).
Proof.
  induction ms as [|m ms IH]; intros rs balances k market a Hk Htok Hlater;
    [discriminate|].
  destruct k as [|k]; cbn in Hk.
  - injection Hk as ->. cbn. rewrite filled_other.
    + unfold result_index. destruct (decide (a = address (quote market))) as [->|Hq].
      * rewrite lookup_insert_eq. reflexivity.
      * destruct Htok as [->|Hq']; [|contradiction].
        rewrite lookup_insert_ne by congruence.
        rewrite lookup_insert_eq. reflexivity.
    + intros market' Hin. apply list_elem_of_lookup in Hin as [j Hj].
      apply (Hlater (S j)); [lia|exact Hj].
  - cbn. rewrite (IH _ _ k market a Hk Htok).
    + rewrite lookup_drop. f_equal. f_equal. unfold result_index.
      destruct (decide _); lia.
    + intros j market' Hlt Hj. apply (Hlater (S j)); [lia|exact Hj].
Qed.

Section Balances.
Context {St : Type} {node : Node St} {sdk : Sdk}.

(** C10. When the batch answers one balance for each call, [getBalances]
    returns a map whose keys are base or quote addresses of the markets
    given, and where an address has the balance at the position of the last
    market that has it: [2k] for the base of market [k], [2k + 1] for its
    quote (the quote's when one market has the address as both). *)
Theorem getBalances_maps_tokens_to_results markets (w : World St) results :
  rpc_multicall (chain w) (balance_calls markets) = Returned results ->
  length results = (2 * length markets)%nat ->
  exists balances : gmap string (option Z),
    getBalances markets w
      = (Returned balances, record (EvMulticall (balance_calls markets)) w)
    /\ (forall a, is_Some (balances !! a) ->
                 exists market, market ∈ markets /\ has_token a market)
    /\ (forall k market a,
          markets !! k = Some market ->
          has_token a market ->
          (forall j market',
              (k < j)%nat -> markets !! j = Some market' -> ~ has_token a market') ->
          balances !! a = Some (results !! result_index k market a)
          /\ is_Some (results !! result_index k market a)).
Proof.
  intros Hread Hlen. exists (filled markets results ∅). split; [|split].
  - unfold getBalances, bind, multicall, call. rewrite Hread.
    rewrite (getBalances_loop_filled markets results Hlen (length markets) 0%nat ∅)
      by lia.
    reflexivity.
  - intros a Hsome. apply filled_keys in Hsome as [Hsome|Hin]; [|exact Hin].
    rewrite lookup_empty in Hsome. destruct Hsome; discriminate.
  - intros k market a Hk Htok Hlater. split.
    + apply filled_last; assumption.
    + apply lookup_lt_is_Some. apply lookup_lt_Some in Hk.
      unfold result_index. destruct (decide _); lia.
Qed.

End Balances.

(** ** Approvals beyond the order functions *)

Section Approvals.
Context {St : Type} {node : Node St} {sdk : Sdk}.

Lemma js_map_from_pairs (props : list ApprovalProp) : forall results index,
  (index + length results <= length props)%nat ->
  js_map_from
    (fun allowance index =>
       match props !! index with
       | Some p =>
           Returned {| ar_token := ap_token p; ar_spender := ap_spender p;
                       ar_allowance := allowance |}
       | None => Thrown (TypeError "props[index] is undefined")
       end) index results
  = Returned (zip_with approval_result (drop index props) results).
Proof.
  induction results as [|a results IH]; intros index Hlen; cbn in *.
  - destruct (drop index props); reflexivity.
  - destruct (props !! index) as [p|] eqn:Hp.
    + cbn. rewrite IH by lia. cbn.
      rewrite (drop_S props p index Hp). reflexivity.
    + apply lookup_ge_None in Hp. lia.
Qed.

Lemma js_map_from_overflow (props : list ApprovalProp) : forall results index,
  (index <= length props)%nat ->
  (length props < index + length results)%nat ->
  js_map_from
    (fun allowance index =>
       match props !! index with
       | Some p =>
           Returned {| ar_token := ap_token p; ar_spender := ap_spender p;
                       ar_allowance := allowance |}
       | None => Thrown (TypeError "props[index] is undefined")
       end) index results
  = Thrown (TypeError "props[index] is undefined").
Proof.
  induction results as [|a results IH]; intros index Hle Hlt; cbn in *; [lia|].
  destruct (props !! index) as [p|] eqn:Hp; [|reflexivity].
  apply lookup_lt_Some in Hp. cbn. rewrite IH by lia. reflexivity.
Qed.

(** X1. [getApprovals] makes one read, the batch of the pairs in order, and
    when the batch answers no more values than pairs, returns the pairs in
    order, each with the value at its position (pairs past the answer are
    left out). *)
Theorem getApprovals_pairs_each_allowance props (w : World St) results :
  rpc_multicall (chain w) (approval_reads props) = Returned results ->
  (length results <= length props)%nat ->
  getApprovals props w
    = (Returned (zip_with approval_result props results),
       record (EvMulticall (approval_reads props)) w).
Proof.
  intros Hread Hlen. unfold getApprovals, bind, multicall, call, js_map.
  fold (approval_reads props). rewrite Hread.
  rewrite js_map_from_pairs by (cbn; lia). reflexivity.
Qed.

(** X2. When the batch answers more values than there are pairs,
    [getApprovals] throws a TypeError: the callback reads a pair that is not
    there. *)
Theorem getApprovals_longer_answer_throws props (w : World St) results :
  rpc_multicall (chain w) (approval_reads props) = Returned results ->
  (length props < length results)%nat ->
  getApprovals props w
    = (Thrown (TypeError "props[index] is undefined"),
       record (EvMulticall (approval_reads props)) w).
Proof.
  intros Hread Hlen. unfold getApprovals, bind, multicall, call, js_map.
  fold (approval_reads props). rewrite Hread.
  rewrite js_map_from_overflow by (cbn; lia). reflexivity.
Qed.

(** What [giveApprovalTo] does, for any amount. *)
Lemma giveApprovalTo_run_amount token spender amount (w : World St) :
  giveApprovalTo token spender amount w =
    let req := approve_request token spender (default maxUint256 amount) in
    match rpc_prepareTransactionRequest (chain w) req with
    | Thrown e => (Thrown e, record (EvPrepare req) w)
    | Returned env =>
        let tx := signTransaction {| request := req; envelope := env |} in
        (match fst (rpc_realtime_sendRawTransaction (chain w) tx) with
         | Returned receipt =>
             if is_reverted receipt then Thrown (Error "Approval failed")
             else Returned receipt
         | Thrown e => Thrown e
         end,
         {| chain := snd (rpc_realtime_sendRawTransaction (chain w) tx);
            trace := trace w ++ [EvPrepare req; EvSendRaw tx] |})
    end.
Proof.
  unfold giveApprovalTo, bind. rewrite realtimeWriteContract_run.
  unfold approve_request; cbn.
  destruct (rpc_prepareTransactionRequest _ _) as [env|e]; [|reflexivity].
  destruct (fst (rpc_realtime_sendRawTransaction _ _)) as [receipt|e]; [|reflexivity].
  destruct (is_reverted receipt); reflexivity.
Qed.

(** X3. A receipt [giveApprovalTo] returns is never a reverted one, and it
    is the receipt of the one transaction sent: [approve(spender, amount)] on
    the token, [maxUint256] when no amount is given, signed by the account. *)
Theorem giveApprovalTo_returns_a_mined_approval token spender amount
    (w w1 : World St) receipt :
  giveApprovalTo token spender amount w = (Returned receipt, w1) ->
  is_reverted receipt = false
  /\ exists env,
      let req := approve_request token spender (default maxUint256 amount) in
      let tx := signTransaction {| request := req; envelope := env |} in
      rpc_prepareTransactionRequest (chain w) req = Returned env
      /\ rpc_realtime_sendRawTransaction (chain w) tx = (Returned receipt, chain w1)
      /\ trace w1 = trace w ++ [EvPrepare req; EvSendRaw tx]
      /\ signer tx = account_address.
Proof.
  rewrite giveApprovalTo_run_amount. cbn zeta.
  destruct (rpc_prepareTransactionRequest _ _) as [env|e]; [|discriminate].
  destruct (rpc_realtime_sendRawTransaction _ _) as [[receipt'|e] s'] eqn:Hsent;
    cbn; [|discriminate].
  destruct (is_reverted receipt') eqn:Hrev; [discriminate|].
  intros [= <- <-]. split; [assumption|]. exists env. cbn.
  split; [reflexivity|]. split; [exact Hsent|]. split; reflexivity.
Qed.

(** What [limitOrder] runs before the price: its defaults, then the
    approval block with the router they gave. *)
Lemma limitOrder_begin_resolve props (w : World St) :
  limitOrder_begin props w =
    match limitOrder_resolve props w with
    | (Returned (userRouter, book), w0) =>
        match limitOrder_approval props userRouter w0 with
        | (Returned _, w1) => (Returned book, w1)
        | (Thrown e, w1) => (Thrown e, w1)
        end
    | (Thrown e, w0) => (Thrown e, w0)
    end.
Proof.
  unfold limitOrder_begin, limitOrder_resolve, bind, ret, getUserRouter, getBook.
  destruct (lop_userRouter props) as [userRouter|], (lop_book props) as [book|];
    cbn;
    repeat match goal with
      | |- context [rpc_getUserRouter ?s ?user] =>
          destruct (rpc_getUserRouter s user); cbn
      | |- context [rpc_getBook ?s ?market ?depth] =>
          destruct (rpc_getBook s market depth); cbn
      end;
    try reflexivity;
    match goal with
    | |- context [limitOrder_approval ?p ?r ?w0] =>
        destruct (limitOrder_approval p r w0) as [[[]|e] w1]; reflexivity
    end.
Qed.

(** X4. When the allowance is below [maxUint128] and the approval comes back
    reverted, [marketOrder] and [limitOrder] throw "Approval failed": the
    approval is the only transaction handed to the channel and no order is
    prepared. In [limitOrder] this is so whether the router and the book were
    given or asked of the node: the check runs in the world [w0] the defaults
    have left. *)
Theorem reverted_approval_stops_the_order :
  (forall props (w : World St) maxTick a env receipt s',
      let token := spent_token (mop_market props) (mop_bs props) in
      let req := approve_request token (mgv params) maxUint256 in
      let tx := signTransaction {| request := req; envelope := env |} in
      marketOrder_maxTick (mop_market props) (mop_bs props) (mop_maxPrice props)
        = Returned maxTick ->
      default false (mop_skipApprovalCheck props) = false ->
      rpc_multicall (chain w) [allowance token account_address (mgv params)]
        = Returned [a] ->
      a < maxUint128 ->
      rpc_prepareTransactionRequest (chain w) req = Returned env ->
      rpc_realtime_sendRawTransaction (chain w) tx = (Returned receipt, s') ->
      is_reverted receipt = true ->
      marketOrder props w
        = (Thrown (Error "Approval failed"),
           {| chain := s';
              trace := trace w ++
                [EvMulticall [allowance token account_address (mgv params)];
                 EvPrepare req; EvSendRaw tx] |}))
  /\ (forall props (w w0 : World St) userRouter book a env receipt s',
      let token := spent_token (lop_market props) (lop_bs props) in
      let req := approve_request token (mgv params) maxUint256 in
      let tx := signTransaction {| request := req; envelope := env |} in
      limitOrder_resolve props w = (Returned (userRouter, book), w0) ->
      default false (lop_skipApprovalCheck props) = false ->
      rpc_multicall (chain w0) [allowance token account_address userRouter]
        = Returned [a] ->
      a < maxUint128 ->
      rpc_prepareTransactionRequest (chain w0) req = Returned env ->
      rpc_realtime_sendRawTransaction (chain w0) tx = (Returned receipt, s') ->
      is_reverted receipt = true ->
      limitOrder props w
        = (Thrown (Error "Approval failed"),
           {| chain := s';
              trace := trace w0 ++
                [EvMulticall [allowance token account_address userRouter];
                 EvPrepare req; EvSendRaw tx] |})).
Proof.
  split.
  - intros props w maxTick a env receipt s' token req tx Htick Hskip Hread Hlt
      Hprep Hsent Hrev.
    unfold marketOrder, marketOrder_send, bind, call. rewrite Htick.
    rewrite (marketOrder_approval_check props Hskip). fold token.
    rewrite (approvalCheck_short _ _ _ a) by assumption. cbn zeta.
    rewrite giveApprovalTo_run. cbn zeta. rewrite record_chain. fold req.
    rewrite Hprep. fold tx. rewrite Hsent. cbn. rewrite Hrev. cbn.
    rewrite <- app_assoc. reflexivity.
  - intros props w w0 userRouter book a env receipt s' token req tx Hresolve
      Hskip Hread Hlt Hprep Hsent Hrev.
    unfold limitOrder, limitOrder_send, bind.
    rewrite limitOrder_begin_resolve, Hresolve.
    rewrite (limitOrder_approval_check props userRouter Hskip). fold token.
    rewrite (approvalCheck_short _ _ _ a) by assumption. cbn zeta.
    rewrite giveApprovalTo_run. cbn zeta. rewrite record_chain. fold req.
    rewrite Hprep. fold tx. rewrite Hsent. cbn. rewrite Hrev. cbn.
    rewrite <- app_assoc. reflexivity.
Qed.

(** X5. When the allowance read answers nothing, the approval check throws
    a TypeError on the missing approval, and [marketOrder] with it: one read
    made, nothing sent. *)
Theorem empty_allowance_answer_throws props (w : World St) maxTick :
  let token := spent_token (mop_market props) (mop_bs props) in
  marketOrder_maxTick (mop_market props) (mop_bs props) (mop_maxPrice props)
    = Returned maxTick ->
  default false (mop_skipApprovalCheck props) = false ->
  rpc_multicall (chain w) [allowance token account_address (mgv params)]
    = Returned [] ->
  marketOrder props w
    = (Thrown (TypeError "approval is undefined"),
       record (EvMulticall [allowance token account_address (mgv params)]) w).
Proof.
  intros token Htick Hskip Hread.
  unfold marketOrder, marketOrder_send, bind, call. rewrite Htick.
  rewrite (marketOrder_approval_check props Hskip). fold token.
  unfold approvalCheck, getApprovals, multicall, call. unfold bind.
  cbn [map ap_token ap_spender]. rewrite Hread. reflexivity.
Qed.

End Approvals.

Section Erc20RoundTrip.
Context {St : Type} {node : Node St} {sdk : Sdk}.

(** ERC-20 on the node, as in the section on running the check twice. *)
Hypothesis approve_sets_allowance :
  forall s env token spender amount receipt s',
    rpc_realtime_sendRawTransaction s
      (signTransaction {| request := approve_request token spender amount;
                          envelope := env |}) = (Returned receipt, s') ->
    is_reverted receipt = false ->
    rpc_multicall s' [allowance token account_address spender] = Returned [amount].

(** X6. On such a node, what [giveApprovalTo] has approved is what
    [getApprovals] reads back right after: the amount given, [maxUint256]
    when none was. *)
Theorem approval_given_is_approval_read token spender amount (w w1 : World St)
    receipt :
  giveApprovalTo token spender amount w = (Returned receipt, w1) ->
  getApprovals [{| ap_token := token; ap_spender := spender |}] w1
    = (Returned [{| ar_token := token; ar_spender := spender;
                    ar_allowance := default maxUint256 amount |}],
       record (EvMulticall [allowance token account_address spender]) w1).
Proof.
  rewrite giveApprovalTo_run_amount. cbn zeta.
  destruct (rpc_prepareTransactionRequest _ _) as [env|e]; [|discriminate].
  destruct (rpc_realtime_sendRawTransaction _ _) as [[receipt'|e] s'] eqn:Hsent;
    cbn; [|discriminate].
  destruct (is_reverted receipt') eqn:Hrev; [discriminate|].
  intros [= <- <-]. apply getApprovals_one. cbn.
  eapply approve_sets_allowance; eassumption.
Qed.

End Erc20RoundTrip.

(** ** The calls a function makes *)

Section Calls.
Context {St : Type} {node : Node St} {sdk : Sdk}.

Lemma emits_quiet {A} (P : Event -> Prop) (c : M St A) :
  (forall w, snd (c w) = w) -> emits P c.
Proof. intros Hc w. exists []. rewrite Hc, app_nil_r. split; [reflexivity|constructor]. Qed.

Lemma emits_one {A} (P : Event -> Prop) (c : M St A) ev :
  (forall w, trace (snd (c w)) = trace w ++ [ev]) -> P ev -> emits P c.
Proof.
  intros Hc Hev w. exists [ev]. split; [apply Hc|]. constructor; [assumption|constructor].
Qed.

Lemma emits_bind {A B} (P : Event -> Prop) (c : M St A) (k : A -> M St B) :
  emits P c -> (forall a, emits P (k a)) -> emits P (bind c k).
Proof.
  intros Hc Hk w. unfold bind. destruct (Hc w) as (evs & Htrace & Hevs).
  destruct (c w) as [[a|e] w1]; cbn in *.
  - destruct (Hk a w1) as (evs' & Htrace' & Hevs').
    exists (evs ++ evs'). rewrite Htrace', Htrace, app_assoc.
    split; [reflexivity|]. apply Forall_app; split; assumption.
  - exists evs. split; assumption.
Qed.

Lemma emits_ret {A} (P : Event -> Prop) (a : A) : emits (St:=St) P (ret a).
Proof. apply emits_quiet. reflexivity. Qed.

Lemma emits_throw {A} (P : Event -> Prop) e : emits P (@throw St A e).
Proof. apply emits_quiet. reflexivity. Qed.

Lemma emits_call {A} (P : Event -> Prop) (o : Outcome A) : emits (St:=St) P (call o).
Proof. apply emits_quiet. reflexivity. Qed.

Lemma emits_multicall (P : Event -> Prop) contracts :
  P (EvMulticall contracts) -> emits P (multicall contracts).
Proof. apply emits_one. reflexivity. Qed.

Lemma emits_getUserRouter (P : Event -> Prop) user :
  P (EvGetUserRouter user) -> emits P (getUserRouter user).
Proof. apply emits_one. reflexivity. Qed.

Lemma emits_getBook (P : Event -> Prop) market depth :
  P (EvGetBook market depth) -> emits P (getBook market depth).
Proof. apply emits_one. reflexivity. Qed.

Lemma emits_decode {A} (P : Event -> Prop) decoder receipt (o : Outcome A) :
  P (EvDecode decoder receipt) -> emits (St:=St) P (decode decoder receipt o).
Proof. apply emits_one. reflexivity. Qed.

Lemma emits_realtimeWriteContract (P : Event -> Prop) address p :
  P (EvPrepare (write_request address p)) ->
  (forall env,
      P (EvSendRaw (signTransaction
                      {| request := write_request address p; envelope := env |}))) ->
  emits P (realtimeWriteContract address p).
Proof.
  intros Hprep Hsend w. rewrite realtimeWriteContract_run. cbn zeta.
  destruct (rpc_prepareTransactionRequest _ _) as [env|e]; cbn.
  - eexists. split; [reflexivity|]. repeat constructor; [assumption|apply Hsend].
  - eexists. split; [reflexivity|]. repeat constructor; assumption.
Qed.

Lemma emits_approvalCheck (P : Event -> Prop) token checked approved :
  P (EvMulticall [allowance token account_address checked]) ->
  P (EvPrepare (approve_request token approved maxUint256)) ->
  (forall env,
      P (EvSendRaw (signTransaction
                      {| request := approve_request token approved maxUint256;
                         envelope := env |}))) ->
  emits P (approvalCheck token checked approved).
Proof.
  intros Hread Hprep Hsend. unfold approvalCheck, getApprovals, giveApprovalTo.
  apply emits_bind.
  - apply emits_bind; [apply emits_multicall; assumption|intros; apply emits_call].
  - intros [|approval approvals]; [apply emits_throw|].
    destruct (ar_allowance approval <? maxUint128); [|apply emits_ret].
    apply emits_bind; [|intros; apply emits_ret].
    apply emits_bind.
    + apply emits_realtimeWriteContract; assumption.
    + intros receipt. destruct (is_reverted receipt); [apply emits_throw|apply emits_ret].
Qed.

(** X7. Every call [marketOrder] makes is one of its own: the read of the
    allowance of [params.mgv] on the token spent and the approval of
    [maxUint256] to [params.mgv] on that token, both only when the check is
    not skipped; the order, sent to [params.mgv]; the market-order decoder.
    What it sends is signed by the account. *)
Theorem marketOrder_makes_only_its_calls props :
  emits (marketOrder_call props) (marketOrder props).
Proof.
  unfold marketOrder. apply emits_bind.
  - unfold marketOrder_send. apply emits_bind; [apply emits_call|intros maxTick].
    apply emits_bind.
    + unfold marketOrder_approval.
      destruct (default false (mop_skipApprovalCheck props)) eqn:Hskip; cbn [negb].
      * apply emits_ret.
      * apply emits_approvalCheck; unfold marketOrder_call; rewrite ?Hskip; cbn; auto.
    + intros _. unfold marketOrder_order.
      apply emits_bind; [apply emits_call|intros built].
      apply emits_realtimeWriteContract; cbn; auto.
  - intros receipt. unfold marketOrder_settle.
    destruct (is_reverted receipt); [apply emits_throw|].
    apply emits_bind; [apply emits_decode; reflexivity|intros; apply emits_ret].
Qed.

(** X8. Every call [limitOrder] makes is one of its own: the user router of
    the account and the book of the market at depth 1, each only when not
    given; the read of one allowance on the token spent and the approval of
    [maxUint256] to [params.mgv], only when the check is not skipped; the
    order, sent to [params.mgvOrder]; the limit-order decoder. *)
Theorem limitOrder_makes_only_its_calls props :
  emits (limitOrder_call props) (limitOrder props).
Proof.
  unfold limitOrder. apply emits_bind.
  - unfold limitOrder_send. apply emits_bind.
    + unfold limitOrder_begin. apply emits_bind.
      * destruct (lop_userRouter props) eqn:Hrouter; [apply emits_ret|].
        apply emits_getUserRouter. cbn. auto.
      * intros userRouter. apply emits_bind.
        -- destruct (lop_book props) eqn:Hbook; [apply emits_ret|].
           apply emits_getBook. cbn. auto.
        -- intros book. apply emits_bind; [|intros; apply emits_ret].
           unfold limitOrder_approval.
           destruct (default false (lop_skipApprovalCheck props)) eqn:Hskip;
             cbn [negb].
           ++ apply emits_ret.
           ++ apply emits_approvalCheck; unfold limitOrder_call; rewrite ?Hskip;
                cbn; eauto.
    + intros book. unfold limitOrder_order.
      apply emits_bind; [apply emits_call|intros tick].
      apply emits_bind; [apply emits_call|intros rawParams].
      apply emits_realtimeWriteContract; cbn; auto.
  - intros receipt. unfold limitOrder_settle.
    destruct (is_reverted receipt); [apply emits_throw|].
    apply emits_bind; [apply emits_decode; reflexivity|intros; apply emits_ret].
Qed.

(** X9. [cancelLimitOrder] reads nothing and approves nothing: it prepares
    and sends to [params.mgvOrder], signed by the account, and runs the
    removal decoder. *)
Theorem cancelLimitOrder_makes_only_its_calls props :
  emits cancelLimitOrder_call (cancelLimitOrder props).
Proof.
  unfold cancelLimitOrder. apply emits_bind.
  - unfold cancelLimitOrder_send.
    apply emits_bind; [apply emits_call|intros rawParams].
    apply emits_realtimeWriteContract; cbn; auto.
  - intros receipt. unfold cancelLimitOrder_settle.
    destruct (is_reverted receipt); [apply emits_throw|].
    apply emits_bind; [apply emits_decode; reflexivity|intros; apply emits_ret].
Qed.

Lemma sends_quiet {A} (c : M St A) : (forall w, snd (c w) = w) -> sends_at_most 0 c.
Proof.
  intros Hc w. exists []. rewrite Hc, app_nil_r. split; [reflexivity|cbn; lia].
Qed.

Lemma sends_none {A} (c : M St A) ev :
  (forall w, trace (snd (c w)) = trace w ++ [ev]) -> sent_of ev = None ->
  sends_at_most 0 c.
Proof.
  intros Hc Hev w. exists [ev]. split; [apply Hc|].
  unfold submitted. cbn. rewrite Hev. cbn. lia.
Qed.

Lemma sends_more {A} n m (c : M St A) :
  (n <= m)%nat -> sends_at_most n c -> sends_at_most m c.
Proof.
  intros Hle Hc w. destruct (Hc w) as (evs & Htrace & Hlen).
  exists evs. split; [assumption|lia].
Qed.

Lemma sends_bind {A B} n m (c : M St A) (k : A -> M St B) :
  sends_at_most n c -> (forall a, sends_at_most m (k a)) ->
  sends_at_most (n + m) (bind c k).
Proof.
  intros Hc Hk w. unfold bind. destruct (Hc w) as (evs & Htrace & Hlen).
  destruct (c w) as [[a|e] w1]; cbn in *.
  - destruct (Hk a w1) as (evs' & Htrace' & Hlen').
    exists (evs ++ evs'). rewrite Htrace', Htrace, app_assoc.
    split; [reflexivity|]. unfold submitted in *. rewrite omap_app, length_app. lia.
  - exists evs. split; [assumption|lia].
Qed.

Lemma sends_realtimeWriteContract address p :
  sends_at_most 1 (realtimeWriteContract address p).
Proof.
  intros w. rewrite realtimeWriteContract_run. cbn zeta.
  destruct (rpc_prepareTransactionRequest _ _) as [env|e]; cbn;
    (eexists; split; [reflexivity|cbn; lia]).
Qed.

Lemma sends_getApprovals props : sends_at_most 0 (getApprovals props).
Proof.
  unfold getApprovals. apply (sends_bind 0 0).
  - eapply sends_none; [intros w; reflexivity|reflexivity].
  - intros results. apply sends_quiet. reflexivity.
Qed.

Lemma sends_giveApprovalTo token spender amount :
  sends_at_most 1 (giveApprovalTo token spender amount).
Proof.
  unfold giveApprovalTo. apply (sends_bind 1 0).
  - apply sends_realtimeWriteContract.
  - intros receipt. destruct (is_reverted receipt); apply sends_quiet; reflexivity.
Qed.

Lemma sends_approvalCheck token checked approved :
  sends_at_most 1 (approvalCheck token checked approved).
Proof.
  unfold approvalCheck. apply (sends_bind 0 1); [apply sends_getApprovals|].
  intros [|approval approvals].
  - apply (sends_more 0); [lia|]. apply sends_quiet. reflexivity.
  - destruct (ar_allowance approval <? maxUint128).
    + apply (sends_bind 1 0); [apply sends_giveApprovalTo|].
      intros receipt. apply sends_quiet. reflexivity.
    + apply (sends_more 0); [lia|]. apply sends_quiet. reflexivity.
Qed.

Lemma sends_settle {A} (failure : Exn) decoder receipt (o : Outcome A) :
  sends_at_most (St:=St) 0
    (if is_reverted receipt then throw failure
     else bind (decode decoder receipt o) (fun result => ret (receipt, result))).
Proof.
  destruct (is_reverted receipt); [apply sends_quiet; reflexivity|].
  apply (sends_bind 0 0).
  - eapply sends_none; [intros w; reflexivity|reflexivity].
  - intros result. apply sends_quiet. reflexivity.
Qed.

(** X10. No function asks the channel for more sends than it has
    transactions of its own: [marketOrder] and [limitOrder] make at most two
    send requests (the approval and the order), one when the approval check is
    skipped; [cancelLimitOrder] and [giveApprovalTo] at most one;
    [getApprovals] and [getBalances] none. A request is counted once, however
    often the transport transmits it. *)
Theorem sends_are_bounded :
  (forall props, sends_at_most (order_budget (mop_skipApprovalCheck props))
                   (marketOrder props))
  /\ (forall props, sends_at_most (order_budget (lop_skipApprovalCheck props))
                      (limitOrder props))
  /\ (forall props, sends_at_most 1 (cancelLimitOrder props))
  /\ (forall token spender amount, sends_at_most 1 (giveApprovalTo token spender amount))
  /\ (forall props, sends_at_most 0 (getApprovals props))
  /\ (forall markets, sends_at_most 0 (getBalances markets)).
Proof.
  repeat split.
  - intros props. unfold marketOrder, order_budget.
    set (skip := default false (mop_skipApprovalCheck props)).
    replace (if skip then 1 else 2)%nat with ((if skip then 0 else 1) + 1 + 0)%nat
      by (destruct skip; reflexivity).
    apply sends_bind; [|intros receipt; apply sends_settle].
    unfold marketOrder_send.
    replace ((if skip then 0 else 1) + 1)%nat
      with (0 + ((if skip then 0 else 1) + 1))%nat by reflexivity.
    apply sends_bind; [apply sends_quiet; reflexivity|intros maxTick].
    apply sends_bind.
    + unfold marketOrder_approval. fold skip. destruct skip; cbn [negb].
      * apply sends_quiet. reflexivity.
      * apply sends_approvalCheck.
    + intros _. unfold marketOrder_order.
      apply (sends_bind 0 1); [apply sends_quiet; reflexivity|intros built].
      apply sends_realtimeWriteContract.
  - intros props. unfold limitOrder, order_budget.
    set (skip := default false (lop_skipApprovalCheck props)).
    replace (if skip then 1 else 2)%nat with ((if skip then 0 else 1) + 1 + 0)%nat
      by (destruct skip; reflexivity).
    apply sends_bind; [|intros receipt; apply sends_settle].
    unfold limitOrder_send. apply sends_bind.
    + unfold limitOrder_begin.
      replace (if skip then 0 else 1)%nat
        with (0 + (0 + ((if skip then 0 else 1) + 0)))%nat by (destruct skip; reflexivity).
      apply sends_bind.
      * destruct (lop_userRouter props); [apply sends_quiet; reflexivity|].
        eapply sends_none; [intros w; reflexivity|reflexivity].
      * intros userRouter. apply sends_bind.
        -- destruct (lop_book props); [apply sends_quiet; reflexivity|].
           eapply sends_none; [intros w; reflexivity|reflexivity].
        -- intros book. apply sends_bind; [|intros; apply sends_quiet; reflexivity].
           unfold limitOrder_approval. fold skip. destruct skip; cbn [negb].
           ++ apply sends_quiet. reflexivity.
           ++ apply sends_approvalCheck.
    + intros book. unfold limitOrder_order.
      apply (sends_bind 0 1); [apply sends_quiet; reflexivity|intros tick].
      apply (sends_bind 0 1); [apply sends_quiet; reflexivity|intros rawParams].
      apply sends_realtimeWriteContract.
  - intros props. unfold cancelLimitOrder.
    apply (sends_bind 1 0); [|intros receipt; apply sends_settle].
    unfold cancelLimitOrder_send.
    apply (sends_bind 0 1); [apply sends_quiet; reflexivity|intros rawParams].
    apply sends_realtimeWriteContract.
  - apply sends_giveApprovalTo.
  - apply sends_getApprovals.
  - intros markets. unfold getBalances. apply (sends_bind 0 0).
    + eapply sends_none; [intros w; reflexivity|reflexivity].
    + intros results. apply sends_quiet. reflexivity.
Qed.

End Calls.

(** ** Balances when the batch answers short or long *)

Lemma getBalances_loop_answered markets results :
  (length results <= 2 * length markets)%nat ->
  forall n k balances,
    (k + n = (length results + 1) / 2)%nat ->
    getBalances_loop markets results (2 * k)%nat balances
      = Returned (filled (take n (drop k markets)) (drop (2 * k) results) balances).
Proof.
  intros Hlen n.
  assert (forall m : nat, (2 * ((m + 1) / 2) <= m + 1)%nat
                          /\ (m <= 2 * ((m + 1) / 2))%nat) as Hhalf.
  { intros m. pose proof (Nat.div_mod_eq (m + 1) 2) as Hm.
    pose proof (Nat.mod_upper_bound (m + 1) 2). lia. }
  specialize (Hhalf (length results)).
  induction n as [|n IH]; intros k balances Hk.
  - rewrite getBalances_loop_step.
    destruct (decide _) as [Hlt|_]; [lia|]. reflexivity.
  - rewrite getBalances_loop_step.
    destruct (decide _) as [_|Hge]; [|lia].
    assert (2 * k / 2 = k)%nat as -> by (rewrite Nat.mul_comm; apply Nat.div_mul; lia).
    destruct (markets !! k) as [market|] eqn:Hmarket.
    + replace (2 * k + 2)%nat with (2 * S k)%nat by lia.
      rewrite IH by lia.
      rewrite (drop_S markets market k Hmarket). cbn [take filled].
      rewrite !lookup_drop, drop_drop.
      replace (2 * k + 0)%nat with (2 * k)%nat by lia.
      replace (2 * k + 2)%nat with (2 * S k)%nat by lia.
      reflexivity.
    + apply lookup_ge_None in Hmarket. lia.
Qed.

Lemma getBalances_loop_overrun markets results :
  (2 * length markets < length results)%nat ->
  forall n k balances,
    (k + n = length markets)%nat ->
    getBalances_loop markets results (2 * k)%nat balances
      = Thrown (TypeError "market is undefined").
Proof.
  intros Hlen n. induction n as [|n IH]; intros k balances Hk;
    rewrite getBalances_loop_step;
    (destruct (decide _) as [_|Hge]; [|lia]);
    (assert (2 * k / 2 = k)%nat as ->
       by (rewrite Nat.mul_comm; apply Nat.div_mul; lia)).
  - rewrite (lookup_ge_None_2 markets k) by lia. reflexivity.
  - destruct (markets !! k) as [market|] eqn:Hmarket; [|reflexivity].
    replace (2 * k + 2)%nat with (2 * S k)%nat by lia. apply IH. lia.
Qed.

Section BalancesEdges.
Context {St : Type} {node : Node St} {sdk : Sdk}.

(** X11. When the batch answers more than two values for each market,
    [getBalances] throws a TypeError after the read: the loop reaches a
    position that has no market. *)
Theorem getBalances_longer_answer_throws markets (w : World St) results :
  rpc_multicall (chain w) (balance_calls markets) = Returned results ->
  (2 * length markets < length results)%nat ->
  getBalances markets w
    = (Thrown (TypeError "market is undefined"),
       record (EvMulticall (balance_calls markets)) w).
Proof.
  intros Hread Hlen. unfold getBalances, bind, multicall, call. rewrite Hread.
  rewrite (getBalances_loop_overrun markets results Hlen (length markets) 0%nat ∅)
    by lia.
  reflexivity.
Qed.

(** X12. When the batch answers fewer values than two for each market,
    [getBalances] does not fail: it returns the map of the markets the answer
    reaches (market [k] when [2k] is a position of the answer), the last of
    them that has an address giving its value; the markets past the answer
    add no key. An empty answer gives the empty map. *)
Theorem getBalances_shorter_answer_is_partial markets (w : World St) results :
  rpc_multicall (chain w) (balance_calls markets) = Returned results ->
  (length results <= 2 * length markets)%nat ->
  exists balances : gmap string (option Z),
    getBalances markets w
      = (Returned balances, record (EvMulticall (balance_calls markets)) w)
    /\ (forall a, is_Some (balances !! a) ->
                 exists k market,
                   markets !! k = Some market /\ (2 * k < length results)%nat
                   /\ has_token a market)
    /\ (forall k market a,
          markets !! k = Some market ->
          (2 * k < length results)%nat ->
          has_token a market ->
          (forall j market',
              (k < j)%nat -> (2 * j < length results)%nat ->
              markets !! j = Some market' -> ~ has_token a market') ->
          balances !! a = Some (results !! result_index k market a))
    /\ (results = [] -> balances = ∅).
Proof.
  intros Hread Hlen.
  set (m := ((length results + 1) / 2)%nat).
  assert (forall k : nat, (k < m)%nat <-> (2 * k < length results)%nat) as Hm.
  { intros k. unfold m. pose proof (Nat.div_mod_eq (length results + 1) 2).
    pose proof (Nat.mod_upper_bound (length results + 1) 2). lia. }
  exists (filled (take m markets) results ∅). split; [|split; [|split]].
  - unfold getBalances, bind, multicall, call. rewrite Hread.
    rewrite (getBalances_loop_answered markets results Hlen m 0%nat ∅) by (unfold m; lia).
    reflexivity.
  - intros a Hsome. apply filled_keys in Hsome as [Hsome|(market & Hin & Htok)].
    + rewrite lookup_empty in Hsome. destruct Hsome; discriminate.
    + apply list_elem_of_lookup in Hin as [k Hk].
      apply lookup_take_Some in Hk as [Hk Hlt].
      exists k, market. split; [assumption|]. split; [apply Hm; assumption|assumption].
  - intros k market a Hk Hlt Htok Hlater. apply filled_last.
    + apply lookup_take_Some. split; [assumption|apply Hm; assumption].
    + assumption.
    + intros j market' Hkj Hj. apply lookup_take_Some in Hj as [Hj Hjm].
      apply (Hlater j); [assumption|apply Hm; assumption|assumption].
  - intros ->. reflexivity.
Qed.

(** X13. When the answer stops on a base balance (an odd number of values,
    [2k + 1]), the quote of market [k] is stored with [undefined] as its
    value, not left out. *)
Theorem getBalances_odd_answer_stores_undefined markets (w : World St) results k market :
  rpc_multicall (chain w) (balance_calls markets) = Returned results ->
  length results = (2 * k + 1)%nat ->
  markets !! k = Some market ->
  exists balances : gmap string (option Z),
    getBalances markets w
      = (Returned balances, record (EvMulticall (balance_calls markets)) w)
    /\ balances !! address (quote market) = Some None.
Proof.
  intros Hread Hodd Hk. pose proof (lookup_lt_Some _ _ _ Hk) as Hlt.
  assert ((length results + 1) / 2 = S k)%nat as Hm.
  { rewrite Hodd. replace (2 * k + 1 + 1)%nat with (S k * 2)%nat by lia.
    apply Nat.div_mul. lia. }
  exists (filled (take (S k) markets) results ∅). split.
  - unfold getBalances, bind, multicall, call. rewrite Hread.
    rewrite (getBalances_loop_answered markets results ltac:(lia) (S k) 0%nat ∅)
      by (rewrite Hm; lia).
    reflexivity.
  - rewrite (filled_last _ results ∅ k market (address (quote market))).
    + unfold result_index. rewrite decide_True by reflexivity.
      rewrite (lookup_ge_None_2 results) by lia. reflexivity.
    + apply lookup_take_Some. split; [assumption|lia].
    + right; reflexivity.
    + intros j market' Hkj Hj. apply lookup_take_Some in Hj as [_ Hj]. lia.
Qed.

End BalancesEdges.

(** ** Bounds, failures and defaults of the order functions *)

Section Orders.
Context {St : Type} {node : Node St} {sdk : Sdk}.

(** X14. A [maxPrice] of [0], [-0] or NaN does not bound a market order:
    [marketOrder] runs as it does with no [maxPrice] at all. *)
Theorem falsy_maxPrice_runs_unbounded props price (w : World St) :
  mop_maxPrice props = Some price ->
  js_falsy price = true ->
  marketOrder props w = marketOrder (with_maxPrice props None) w.
Proof.
  intros Hprice Hfalsy. destruct props as [market bs fillVolume fillWants maxPrice skip].
  cbn in Hprice; subst maxPrice. unfold with_maxPrice; cbn.
  unfold marketOrder, marketOrder_send. cbn [mop_market mop_bs mop_maxPrice].
  rewrite (falsy_maxPrice_reads_as_absent market bs price Hfalsy). reflexivity.
Qed.

(** X15. For a price that bounds ([maxPrice] not [0] nor NaN), the bound of
    a market order and the tick of a limit order at that price, on the same
    market and side, are the same tick (or fail alike). *)
Theorem market_bound_is_limit_tick market bs price :
  js_falsy price = false ->
  marketOrder_maxTick market bs (Some price) = limitOrder_tick market bs price.
Proof.
  intros Htruthy. unfold marketOrder_maxTick, limitOrder_tick. rewrite Htruthy.
  reflexivity.
Qed.


(** X17. Before it looks at the price, [limitOrder] asks the node only for
    what it was not given: with no router and no book given it asks for the
    router of the account, then for the book at depth 1, then reads the
    allowance of that router; with both given and the check skipped it calls
    nothing; and when the router cannot be resolved it throws that error
    after that one call. *)
Theorem limitOrder_asks_for_missing_defaults :
  (forall props (w : World St) userRouter book a,
      let token := spent_token (lop_market props) (lop_bs props) in
      lop_userRouter props = None ->
      lop_book props = None ->
      default false (lop_skipApprovalCheck props) = false ->
      rpc_getUserRouter (chain w) account_address = Returned userRouter ->
      rpc_getBook (chain w) (lop_market props) 1 = Returned book ->
      rpc_multicall (chain w) [allowance token account_address userRouter]
        = Returned [a] ->
      maxUint128 <= a ->
      limitOrder_begin props w
        = (Returned book,
           {| chain := chain w;
              trace := trace w ++
                [EvGetUserRouter account_address; EvGetBook (lop_market props) 1;
                 EvMulticall [allowance token account_address userRouter]] |}))
  /\ (forall props (w : World St) userRouter book,
      lop_userRouter props = Some userRouter ->
      lop_book props = Some book ->
      default false (lop_skipApprovalCheck props) = true ->
      limitOrder_begin props w = (Returned book, w))
  /\ (forall props (w : World St) e,
      lop_userRouter props = None ->
      rpc_getUserRouter (chain w) account_address = Thrown e ->
      limitOrder props w = (Thrown e, record (EvGetUserRouter account_address) w)).
Proof.
  split; [|split].
  - intros props w userRouter book a token Hrouter Hbook Hskip Hr Hb Hread Hge.
    unfold limitOrder_begin, bind, getUserRouter, getBook, ret.
    rewrite Hrouter, Hbook, Hr. rewrite record_chain, Hb.
    rewrite (limitOrder_approval_check props userRouter Hskip). fold token.
    rewrite (approvalCheck_enough _ _ _ a) by (rewrite ?record_chain; assumption).
    unfold record; cbn. rewrite <- !app_assoc. reflexivity.
  - intros props w userRouter book Hrouter Hbook Hskip.
    unfold limitOrder_begin, limitOrder_approval, bind, ret.
    rewrite Hrouter, Hbook, Hskip. reflexivity.
  - intros props w e Hrouter Hr.
    unfold limitOrder, limitOrder_send, limitOrder_begin, bind, getUserRouter.
    rewrite Hrouter, Hr. reflexivity.
Qed.

(** X18. A receipt [realtimeWriteContract] returns is the answer of the
    node to the one transaction sent, and that transaction is the request
    handed in (address, function data and value as given) in the envelope the
    node prepared for it, signed by the account. *)
Theorem realtimeWriteContract_sends_what_was_prepared address p (w w1 : World St)
    receipt :
  realtimeWriteContract address p w = (Returned receipt, w1) ->
  exists env,
    let req := {| to := address; data := encodeFunctionData p; tx_value := value p |} in
    let tx := {| signer := account_address;
                 signed := {| request := req; envelope := env |} |} in
    rpc_prepareTransactionRequest (chain w) req = Returned env
    /\ rpc_realtime_sendRawTransaction (chain w) tx = (Returned receipt, chain w1)
    /\ trace w1 = trace w ++ [EvPrepare req; EvSendRaw tx].
Proof.
  rewrite realtimeWriteContract_run. cbn zeta. unfold write_request, signTransaction.
  destruct (rpc_prepareTransactionRequest _ _) as [env|e]; [|discriminate].
  destruct (rpc_realtime_sendRawTransaction _ _) as [result s'] eqn:Hsent. cbn.
  intros [= -> <-]. exists env. cbn. repeat split. exact Hsent.
Qed.

(** X19. A market order that goes through: with the allowance at or above
    [maxUint128], the order built, prepared, mined without reverting and
    decoded, [marketOrder] returns the receipt with the decoded result, having
    made four calls in this order: the allowance read, the preparation, the
    send, the decoding. *)
Theorem marketOrder_goes_through props (w : World St) maxTick a built env receipt s'
    result :
  let token := spent_token (mop_market props) (mop_bs props) in
  let req := write_request (mgv params) built in
  let tx := signTransaction {| request := req; envelope := env |} in
  marketOrder_maxTick (mop_market props) (mop_bs props) (mop_maxPrice props)
    = Returned maxTick ->
  default false (mop_skipApprovalCheck props) = false ->
  rpc_multicall (chain w) [allowance token account_address (mgv params)]
    = Returned [a] ->
  maxUint128 <= a ->
  marketOrderByTickParams (marketOrder_args props maxTick) = Returned built ->
  rpc_prepareTransactionRequest (chain w) req = Returned env ->
  rpc_realtime_sendRawTransaction (chain w) tx = (Returned receipt, s') ->
  is_reverted receipt = false ->
  marketOrderResultFromLogs params (mop_market props)
    {| mol_logs := logs receipt; mol_bs := mop_bs props;
       mol_taker := account_address |} = Returned result ->
  marketOrder props w
    = (Returned (receipt, result),
       {| chain := s';
          trace := trace w ++
            [EvMulticall [allowance token account_address (mgv params)];
             EvPrepare req; EvSendRaw tx; EvDecode DecodeMarketOrder receipt] |}).
Proof.
  intros token req tx Htick Hskip Hread Hge Hbuilt Hprep Hsent Hrev Hresult.
  unfold marketOrder, marketOrder_send, bind, call. rewrite Htick.
  rewrite (marketOrder_approval_check props Hskip). fold token.
  rewrite (approvalCheck_enough _ _ _ a) by assumption.
  rewrite marketOrder_order_run, Hbuilt, realtimeWriteContract_run. cbn zeta.
  rewrite record_chain. fold req. rewrite Hprep. fold tx. rewrite Hsent. cbn [fst snd].
  rewrite marketOrder_settle_run, Hrev, Hresult. unfold record; cbn.
  rewrite <- !app_assoc. reflexivity.
Qed.

End Orders.

(** ** The client on the test doubles *)

Section Scenarios.
#[local] Existing Instance Fake.node.
#[local] Existing Instance Fake.sdk.

Example tick_of_100_sell :
  marketOrder_maxTick Fake.MEGA_USDC sell (Some Fake.price_100) = Returned (-235688).
Proof. reflexivity. Qed.

Example tick_of_100_buy :
  marketOrder_maxTick Fake.MEGA_USDC buy (Some Fake.price_100) = Returned 235688.
Proof. reflexivity. Qed.

(** C2 on the market of the scenario: tick spacing 1, decimals 18 and 6,
    price 100. *)
Lemma buy_tick_negates_sell_tick_witness :
  js_gt0 Fake.price_100 = true
  /\ (@marketOrder_maxTick Fake.sdk Fake.MEGA_USDC buy (Some Fake.price_100)
        = outcome_map Z.opp
            (@marketOrder_maxTick Fake.sdk Fake.MEGA_USDC sell (Some Fake.price_100))
      /\ @limitOrder_tick Fake.sdk Fake.MEGA_USDC buy Fake.price_100
        = outcome_map Z.opp (@limitOrder_tick Fake.sdk Fake.MEGA_USDC sell Fake.price_100)).
Proof.
  split; [reflexivity|].
  apply (@buy_tick_negates_sell_tick Fake.sdk Fake.MEGA_USDC Fake.price_100).
  reflexivity.
Defined.

(** Two market orders in a row approve once: the second check finds the
    allowance it asks about raised. *)
Example marketOrder_check_approves_once :
  let first := marketOrder_approval (Fake.market_order sell None false)
                 (Fake.start Fake.genesis) in
  let second := marketOrder_approval (Fake.market_order sell None false) (snd first) in
  fst first = Returned tt /\ fst second = Returned tt
  /\ map (fun tx => request (signed tx)) (submitted (trace (snd second)))
     = [approve_request "0xMEGA" (mgv params) maxUint256].
Proof. vm_compute. repeat split; reflexivity. Qed.

(** C1. The approval check of [limitOrder], run twice in a row on an account
    whose router has no allowance, sends two approvals: it reads the
    allowance of the user router and approves [params.mgv], so the allowance
    it reads is as low the second time as the first. *)
Theorem limitOrder_check_approves_again :
  let first := limitOrder_begin (Fake.limit_order sell Fake.price_100 false)
                 (Fake.start Fake.genesis) in
  let second := limitOrder_begin (Fake.limit_order sell Fake.price_100 false)
                  (snd first) in
  fst first = Returned Fake.empty_book /\ fst second = Returned Fake.empty_book
  /\ map (fun tx => request (signed tx)) (submitted (trace (snd second)))
     = [approve_request "0xMEGA" (mgv params) maxUint256;
        approve_request "0xMEGA" (mgv params) maxUint256]
  /\ Fake.read (chain (snd second)) (allowance "0xMEGA" Fake.account "0xROUTER") = 0
  /\ Fake.read (chain (snd second)) (allowance "0xMEGA" Fake.account (mgv params))
     = maxUint256.
Proof. vm_compute. repeat split; reflexivity. Qed.

(** C4 on a fresh account buying with USDC: one read, one approval. *)
Lemma approval_gate_raises_once_witness :
  marketOrder_approval (Fake.market_order buy (Some Fake.price_100) false)
    (Fake.start Fake.genesis)
  = (Returned tt,
     {| chain := snd (Fake.execute Fake.genesis
                        (Fake.signed_at Fake.genesis
                           (approve_request "0xUSDC" (mgv params) maxUint256)));
        trace := [EvMulticall [allowance "0xUSDC" Fake.account (mgv params)];
                  EvPrepare (approve_request "0xUSDC" (mgv params) maxUint256);
                  EvSendRaw (Fake.signed_at Fake.genesis
                               (approve_request "0xUSDC" (mgv params) maxUint256))] |}).
Proof.
  pose proof (approval_gate_raises_once
                (Fake.market_order buy (Some Fake.price_100) false)
                (Fake.start Fake.genesis) 0) as H.
  cbv zeta in H. specialize (H eq_refl).
  assert (rpc_multicall (chain (Fake.start Fake.genesis))
            [allowance "0xUSDC" account_address (mgv params)] = Returned [0]) as Hread
    by (vm_compute; reflexivity).
  destruct (H Hread) as (_ & Hshort & _).
  assert (0 < maxUint128) as Hlt by reflexivity.
  exact (Hshort Hlt (Fake.envelope_at Fake.genesis) _ _ eq_refl
           (surjective_pairing _)).
Defined.

(** C9 on a sell without [maxPrice]. *)
Lemma unbounded_market_order_uses_MAX_TICK_witness :
  marketOrder_maxTick Fake.MEGA_USDC sell None = Returned 887272
  /\ exists built env,
      marketOrderByTickParams
        (marketOrder_args (Fake.market_order sell None true) 887272) = Returned built
      /\ mo_maxTick (marketOrder_args (Fake.market_order sell None true) 887272)
         = 887272
      /\ last (trace (snd (marketOrder_send (Fake.market_order sell None true)
                             (Fake.start Fake.trading))))
         = Some (EvSendRaw (signTransaction
                              {| request := write_request (mgv params) built;
                                 envelope := env |})).
Proof.
  assert (marketOrder_send (Fake.market_order sell None true) (Fake.start Fake.trading)
          = (Returned (Fake.receipt_of Fake.trading TxSuccess (Fake.emitted Fake.trading)
                         "marketOrderByTick"),
             snd (marketOrder_send (Fake.market_order sell None true)
                    (Fake.start Fake.trading)))) as Hsend
    by (vm_compute; reflexivity).
  exact (unbounded_market_order_uses_MAX_TICK
           (Fake.market_order sell None true) (Fake.start Fake.trading) _ _
           eq_refl Hsend).
Defined.

(** C3 on the ledgers: a market order and a cancellation that revert, a
    limit order that settles. *)
Lemma reverted_receipt_is_never_decoded_witness :
  (marketOrder (Fake.market_order sell None true) (Fake.start Fake.failing)
   = (Thrown (Error "Market order failed"),
      snd (marketOrder_send (Fake.market_order sell None true)
             (Fake.start Fake.failing)))
   /\ decoder_calls
        (trace (snd (marketOrder_send (Fake.market_order sell None true)
                       (Fake.start Fake.failing))))
      = decoder_calls (trace (Fake.start Fake.failing)))
  /\ limitOrder (Fake.limit_order sell Fake.price_100 true) (Fake.start Fake.trading)
     = (outcome_map
          (pair (Fake.receipt_of Fake.trading TxSuccess (Fake.emitted Fake.trading)
                   "take"))
          (limitOrderResultFromLogs params Fake.MEGA_USDC
             {| lol_logs := Fake.emitted Fake.trading; lol_user := Fake.account;
                lol_bs := sell |}),
        record (EvDecode DecodeLimitOrder
                  (Fake.receipt_of Fake.trading TxSuccess (Fake.emitted Fake.trading)
                     "take"))
          (snd (limitOrder_send (Fake.limit_order sell Fake.price_100 true)
                  (Fake.start Fake.trading))))
  /\ cancelLimitOrder (Fake.cancel_order 7) (Fake.start Fake.failing)
     = (Thrown (Error "Limit order cancellation failed"),
        snd (cancelLimitOrder_send (Fake.cancel_order 7) (Fake.start Fake.failing))).
Proof.
  destruct (@reverted_receipt_is_never_decoded Fake.Ledger Fake.node Fake.sdk)
    as (Hmarket & Hlimit & Hcancel).
  split; [|split].
  - refine (proj1 (Hmarket (Fake.market_order sell None true) (Fake.start Fake.failing)
                     _ (Fake.receipt_of Fake.failing TxReverted [] "marketOrderByTick")
                     _) eq_refl).
    vm_compute; reflexivity.
  - refine (proj2 (Hlimit (Fake.limit_order sell Fake.price_100 true)
                     (Fake.start Fake.trading) _
                     (Fake.receipt_of Fake.trading TxSuccess (Fake.emitted Fake.trading)
                        "take") _) eq_refl).
    vm_compute; reflexivity.
  - refine (proj1 (proj1 (Hcancel (Fake.cancel_order 7) (Fake.start Fake.failing) _
                            (Fake.receipt_of Fake.failing TxReverted [] "retractOffer")
                            _) eq_refl)).
    vm_compute; reflexivity.
Defined.

(** C6 refuted: a sell bounded at [2 ** 200] has a tick beyond [MAX_TICK],
    and the market order and the limit order made of it are sent and settle. *)
Lemma out_of_range_tick_reaches_the_channel :
  marketOrder_maxTick Fake.MEGA_USDC sell (Some Fake.price_huge) = Returned 1109120
  /\ MAX_TICK < Z.abs 1109120
  /\ (exists result,
        fst (marketOrder (Fake.market_order sell (Some Fake.price_huge) true)
               (Fake.start Fake.trading)) = Returned result)
  /\ submitted (trace (snd (marketOrder
                              (Fake.market_order sell (Some Fake.price_huge) true)
                              (Fake.start Fake.trading))))
     = [Fake.signed_at Fake.trading
          (write_request (mgv params)
             (Fake.market_call
                (marketOrder_args (Fake.market_order sell (Some Fake.price_huge) true)
                   1109120)))]
  /\ (exists result,
        fst (limitOrder (Fake.limit_order sell Fake.price_huge true)
               (Fake.start Fake.trading)) = Returned result)
  /\ submitted (trace (snd (limitOrder (Fake.limit_order sell Fake.price_huge true)
                              (Fake.start Fake.trading))))
     = [Fake.signed_at Fake.trading
          (write_request (mgvOrder params)
             (Fake.limit_call
                (limitOrder_args (Fake.limit_order sell Fake.price_huge true)
                   Fake.empty_book 1109120)))].
Proof.
  vm_compute. repeat split; try reflexivity; eexists; reflexivity.
Qed.

(** C6, as the client has it, on the same two orders. *)
Lemma computed_tick_is_sent_unchecked_witness :
  (mo_maxTick (marketOrder_args (Fake.market_order sell (Some Fake.price_huge) true)
                 1109120) = 1109120
   /\ submitted (trace (snd (marketOrder
                               (Fake.market_order sell (Some Fake.price_huge) true)
                               (Fake.start Fake.trading))))
      = submitted (trace (Fake.start Fake.trading))
          ++ [signTransaction
                {| request :=
                     write_request (mgv params)
                       (Fake.market_call
                          (marketOrder_args
                             (Fake.market_order sell (Some Fake.price_huge) true)
                             1109120));
                   envelope := Fake.envelope_at Fake.trading |}])
  /\ (lo_tick (limitOrder_args (Fake.limit_order sell Fake.price_huge true)
                 Fake.empty_book 1109120) = 1109120
      /\ submitted (trace (snd (limitOrder (Fake.limit_order sell Fake.price_huge true)
                                  (Fake.start Fake.trading))))
         = submitted
             (trace (snd (limitOrder_begin (Fake.limit_order sell Fake.price_huge true)
                            (Fake.start Fake.trading))))
             ++ [signTransaction
                   {| request :=
                        write_request (mgvOrder params)
                          (Fake.limit_call
                             (limitOrder_args
                                (Fake.limit_order sell Fake.price_huge true)
                                Fake.empty_book 1109120));
                      envelope := Fake.envelope_at Fake.trading |}]).
Proof.
  destruct (@computed_tick_is_sent_unchecked Fake.Ledger Fake.node Fake.sdk)
    as (Hmarket & Hlimit).
  split.
  - exact (Hmarket (Fake.market_order sell (Some Fake.price_huge) true)
             (Fake.start Fake.trading) (Fake.start Fake.trading) 1109120 _ _
             eq_refl eq_refl eq_refl eq_refl).
  - refine (Hlimit (Fake.limit_order sell Fake.price_huge true)
              (Fake.start Fake.trading) _ Fake.empty_book 1109120 _ _
              eq_refl _ eq_refl eq_refl).
    vm_compute; reflexivity.
Defined.

(** C5 refuted: the price zero is at most zero, and a market order bounded
    by it is not refused: it runs with [MAX_TICK] and settles. A limit order
    at [-100] fails in the conversion, after five calls to the node. *)
Lemma zero_price_is_not_refused :
  js_le0 number_zero = true
  /\ marketOrder_maxTick Fake.MEGA_USDC buy (Some number_zero) = Returned MAX_TICK
  /\ (exists result,
        fst (marketOrder (Fake.market_order buy (Some number_zero) true)
               (Fake.start Fake.trading)) = Returned result)
  /\ js_le0 Fake.price_negative = true
  /\ fst (limitOrder (Fake.limit_order sell Fake.price_negative false)
            (Fake.start Fake.trading))
     = Thrown (SdkError "RangeError: price has no tick")
  /\ length (network_calls
               (trace (snd (limitOrder (Fake.limit_order sell Fake.price_negative false)
                              (Fake.start Fake.trading))))) = 5%nat.
Proof.
  vm_compute. repeat split; try reflexivity; eexists; reflexivity.
Qed.

(** The stand-in for the SDK refuses every price at or below zero. *)
Lemma fake_sdk_refuses_nonpositive market price :
  js_le0 price = true -> exists e, sdk_price_to_tick market price = Thrown e.
Proof.
  unfold sdk_price_to_tick. cbn.
  destruct price as [[]|[]| |[] m e]; cbn; intros Hle; try discriminate;
    try (eexists; reflexivity).
  destruct (0 <=? decimals (quote market) - decimals (base market)).
  - destruct (Z.pos m * 5 ^ (decimals (quote market) - decimals (base market)));
      eexists; reflexivity.
  - destruct (Z.pos m * 2 ^ 64 / 5 ^ (- (decimals (quote market) - decimals (base market))));
      eexists; reflexivity.
Qed.

(** C5, as the client has it, on the price [-100] in a market order and in
    a limit order. *)
Lemma nonpositive_price_fails_in_the_conversion_witness :
  (exists e,
      sdk_price_to_tick Fake.MEGA_USDC Fake.price_negative = Thrown e
      /\ marketOrder (Fake.market_order sell (Some Fake.price_negative) false)
           (Fake.start Fake.trading)
         = (Thrown e, Fake.start Fake.trading))
  /\ (exists e,
      sdk_price_to_tick Fake.MEGA_USDC Fake.price_negative = Thrown e
      /\ limitOrder (Fake.limit_order sell Fake.price_negative false)
           (Fake.start Fake.trading)
         = (Thrown e,
            snd (limitOrder_begin (Fake.limit_order sell Fake.price_negative false)
                   (Fake.start Fake.trading)))).
Proof.
  destruct (@nonpositive_price_fails_in_the_conversion Fake.Ledger Fake.node Fake.sdk
              fake_sdk_refuses_nonpositive) as (Hmarket & Hlimit).
  split.
  - exact (Hmarket (Fake.market_order sell (Some Fake.price_negative) false)
             (Fake.start Fake.trading) Fake.price_negative eq_refl eq_refl).
  - refine (Hlimit (Fake.limit_order sell Fake.price_negative false)
              (Fake.start Fake.trading) _ Fake.empty_book eq_refl _).
    vm_compute; reflexivity.
Defined.

(** C10 on two markets that share USDC. *)
Lemma getBalances_maps_tokens_to_results_witness :
  exists balances : gmap string (option Z),
    getBalances [Fake.MEGA_USDC; Fake.WETH_USDC] (Fake.start Fake.funded)
      = (Returned balances,
         record (EvMulticall (balance_calls [Fake.MEGA_USDC; Fake.WETH_USDC]))
           (Fake.start Fake.funded))
    /\ (forall a, is_Some (balances !! a) ->
                 exists market,
                   market ∈ [Fake.MEGA_USDC; Fake.WETH_USDC] /\ has_token a market)
    /\ (forall k market a,
          [Fake.MEGA_USDC; Fake.WETH_USDC] !! k = Some market ->
          has_token a market ->
          (forall j market',
              (k < j)%nat -> [Fake.MEGA_USDC; Fake.WETH_USDC] !! j = Some market' ->
              ~ has_token a market') ->
          balances !! a = Some ([5; 11; 7; 11] !! result_index k market a)
          /\ is_Some ([5; 11; 7; 11] !! result_index k market a)).
Proof.
  refine (getBalances_maps_tokens_to_results [Fake.MEGA_USDC; Fake.WETH_USDC]
            (Fake.start Fake.funded) [5; 11; 7; 11] _ eq_refl).
  vm_compute; reflexivity.
Defined.

Example getBalances_shared_quote :
  match fst (getBalances [Fake.MEGA_USDC; Fake.WETH_USDC] (Fake.start Fake.funded)) with
  | Returned balances =>
      balances !! "0xMEGA" = Some (Some 5) /\ balances !! "0xWETH" = Some (Some 7)
      /\ balances !! "0xUSDC" = Some (Some 11) /\ balances !! "0xDAI" = None
  | Thrown _ => False
  end.
Proof. vm_compute. repeat split; reflexivity. Qed.

(** X1 on two pairs, the first approved. *)
Lemma getApprovals_pairs_each_allowance_witness :
  getApprovals Fake.two_pairs (Fake.start Fake.approved)
  = (Returned [{| ar_token := "0xUSDC"; ar_spender := mgv params;
                  ar_allowance := maxUint256 |};
               {| ar_token := "0xMEGA"; ar_spender := mgv params;
                  ar_allowance := 0 |}],
     record (EvMulticall (approval_reads Fake.two_pairs)) (Fake.start Fake.approved)).
Proof.
  refine (getApprovals_pairs_each_allowance Fake.two_pairs (Fake.start Fake.approved)
            [maxUint256; 0] _ _).
  - vm_compute; reflexivity.
  - cbn; lia.
Defined.

(** X2 on a batch that answers one value too many. *)
Lemma getApprovals_longer_answer_throws_witness :
  @getApprovals _ (Fake.node_answering (fun values => values ++ [0])) Fake.two_pairs
    (Fake.start Fake.approved)
  = (Thrown (TypeError "props[index] is undefined"),
     record (EvMulticall
               (@approval_reads _ (Fake.node_answering (fun values => values ++ [0]))
                  Fake.two_pairs))
       (Fake.start Fake.approved)).
Proof.
  refine (@getApprovals_longer_answer_throws _
            (Fake.node_answering (fun values => values ++ [0])) Fake.two_pairs
            (Fake.start Fake.approved) [maxUint256; 0; 0] _ _).
  - vm_compute; reflexivity.
  - cbn; lia.
Defined.

(** X3 on an approval of 500 on a fresh account. *)
Lemma giveApprovalTo_returns_a_mined_approval_witness :
  is_reverted (Fake.receipt_of Fake.genesis TxSuccess [] "approve") = false
  /\ exists env,
      let req := approve_request "0xUSDC" (mgv params) 500 in
      let tx := signTransaction {| request := req; envelope := env |} in
      rpc_prepareTransactionRequest (chain (Fake.start Fake.genesis)) req = Returned env
      /\ rpc_realtime_sendRawTransaction (chain (Fake.start Fake.genesis)) tx
         = (Returned (Fake.receipt_of Fake.genesis TxSuccess [] "approve"),
            chain (snd (giveApprovalTo "0xUSDC" (mgv params) (Some 500)
                          (Fake.start Fake.genesis))))
      /\ trace (snd (giveApprovalTo "0xUSDC" (mgv params) (Some 500)
                       (Fake.start Fake.genesis)))
         = trace (Fake.start Fake.genesis) ++ [EvPrepare req; EvSendRaw tx]
      /\ signer tx = account_address.
Proof.
  refine (giveApprovalTo_returns_a_mined_approval "0xUSDC" (mgv params) (Some 500)
            (Fake.start Fake.genesis) _ _ _).
  vm_compute; reflexivity.
Defined.

(** X4 on a ledger whose approvals revert; the limit order is given
    neither router nor book. *)
Lemma reverted_approval_stops_the_order_witness :
  marketOrder (Fake.market_order buy (Some Fake.price_100) false)
    (Fake.start Fake.unapproving)
  = (Thrown (Error "Approval failed"),
     {| chain := Fake.mined Fake.unapproving ∅;
        trace := [EvMulticall [allowance "0xUSDC" Fake.account (mgv params)];
                  EvPrepare (approve_request "0xUSDC" (mgv params) maxUint256);
                  EvSendRaw (Fake.signed_at Fake.unapproving
                               (approve_request "0xUSDC" (mgv params) maxUint256))] |})
  /\ limitOrder (Fake.limit_order sell Fake.price_100 false)
       (Fake.start Fake.unapproving)
     = (Thrown (Error "Approval failed"),
        {| chain := Fake.mined Fake.unapproving ∅;
           trace := [EvGetUserRouter Fake.account; EvGetBook Fake.MEGA_USDC 1;
                     EvMulticall [allowance "0xMEGA" Fake.account "0xROUTER"];
                     EvPrepare (approve_request "0xMEGA" (mgv params) maxUint256);
                     EvSendRaw (Fake.signed_at Fake.unapproving
                                  (approve_request "0xMEGA" (mgv params) maxUint256))] |}).
Proof.
  destruct (@reverted_approval_stops_the_order Fake.Ledger Fake.node Fake.sdk)
    as (Hmarket & Hlimit).
  split.
  - refine (Hmarket (Fake.market_order buy (Some Fake.price_100) false)
              (Fake.start Fake.unapproving) 235688 0
              (Fake.envelope_at Fake.unapproving)
              (Fake.receipt_of Fake.unapproving TxReverted [] "approve") _
              eq_refl eq_refl _ _ eq_refl eq_refl eq_refl).
    + vm_compute; reflexivity.
    + reflexivity.
  - refine (Hlimit (Fake.limit_order sell Fake.price_100 false)
              (Fake.start Fake.unapproving)
              {| chain := Fake.unapproving;
                 trace := [EvGetUserRouter Fake.account;
                           EvGetBook Fake.MEGA_USDC 1] |}
              "0xROUTER" Fake.empty_book 0
              (Fake.envelope_at Fake.unapproving)
              (Fake.receipt_of Fake.unapproving TxReverted [] "approve") _
              eq_refl eq_refl _ _ eq_refl eq_refl eq_refl).
    + vm_compute; reflexivity.
    + reflexivity.
Defined.

(** X5 on a batch that answers nothing. *)
Lemma empty_allowance_answer_throws_witness :
  @marketOrder _ (Fake.node_answering (fun _ => [])) Fake.sdk
    (Fake.market_order buy (Some Fake.price_100) false) (Fake.start Fake.genesis)
  = (Thrown (TypeError "approval is undefined"),
     record (EvMulticall [allowance "0xUSDC" Fake.account (mgv params)])
       (Fake.start Fake.genesis)).
Proof.
  exact (@empty_allowance_answer_throws _ (Fake.node_answering (fun _ => [])) Fake.sdk
           (Fake.market_order buy (Some Fake.price_100) false)
           (Fake.start Fake.genesis) 235688 eq_refl eq_refl eq_refl).
Defined.

(** X6 on the ledger: approve 500, read 500. *)
Lemma approval_given_is_approval_read_witness :
  getApprovals [{| ap_token := "0xUSDC"; ap_spender := mgv params |}]
    (snd (giveApprovalTo "0xUSDC" (mgv params) (Some 500) (Fake.start Fake.genesis)))
  = (Returned [{| ar_token := "0xUSDC"; ar_spender := mgv params;
                  ar_allowance := 500 |}],
     record (EvMulticall [allowance "0xUSDC" Fake.account (mgv params)])
       (snd (giveApprovalTo "0xUSDC" (mgv params) (Some 500)
               (Fake.start Fake.genesis)))).
Proof.
  refine (@approval_given_is_approval_read _ Fake.node ledger_approve_sets_allowance
            "0xUSDC" (mgv params) (Some 500) (Fake.start Fake.genesis) _
            (Fake.receipt_of Fake.genesis TxSuccess [] "approve") _).
  vm_compute; reflexivity.
Defined.

(** The approval block of [marketOrder] run twice on the ledger. *)
Lemma marketOrder_approval_twice_witness :
  exists w2,
    marketOrder_approval (Fake.market_order sell None false)
      (snd (marketOrder_approval (Fake.market_order sell None false)
              (Fake.start Fake.genesis)))
    = (Returned tt, w2)
    /\ submitted (trace w2)
       = submitted (trace (snd (marketOrder_approval
                                  (Fake.market_order sell None false)
                                  (Fake.start Fake.genesis)))).
Proof.
  refine (@marketOrder_approval_twice _ Fake.node ledger_approve_sets_allowance
            (Fake.market_order sell None false) (Fake.start Fake.genesis) _ _).
  vm_compute; reflexivity.
Defined.

(** X11 to X13 on batches that answer a value too many, two values and
    three values for two markets. *)
Lemma getBalances_longer_answer_throws_witness :
  @getBalances _ (Fake.node_answering (fun values => values ++ [0]))
    [Fake.MEGA_USDC] (Fake.start Fake.funded)
  = (Thrown (TypeError "market is undefined"),
     record (EvMulticall
               (@balance_calls _ (Fake.node_answering (fun values => values ++ [0]))
                  [Fake.MEGA_USDC]))
       (Fake.start Fake.funded)).
Proof.
  refine (@getBalances_longer_answer_throws _
            (Fake.node_answering (fun values => values ++ [0]))
            [Fake.MEGA_USDC] (Fake.start Fake.funded) [5; 11; 0] _ _).
  - vm_compute; reflexivity.
  - cbn; lia.
Defined.

Lemma getBalances_shorter_answer_is_partial_witness :
  exists balances : gmap string (option Z),
    @getBalances _ (Fake.node_answering (take 2))
      [Fake.MEGA_USDC; Fake.WETH_USDC] (Fake.start Fake.funded)
      = (Returned balances,
         record (EvMulticall
                   (@balance_calls _ (Fake.node_answering (take 2))
                      [Fake.MEGA_USDC; Fake.WETH_USDC]))
           (Fake.start Fake.funded))
    /\ (forall a, is_Some (balances !! a) ->
                 exists k market,
                   [Fake.MEGA_USDC; Fake.WETH_USDC] !! k = Some market
                   /\ (2 * k < length [5; 11])%nat /\ has_token a market)
    /\ (forall k market a,
          [Fake.MEGA_USDC; Fake.WETH_USDC] !! k = Some market ->
          (2 * k < length [5; 11])%nat ->
          has_token a market ->
          (forall j market',
              (k < j)%nat -> (2 * j < length [5; 11])%nat ->
              [Fake.MEGA_USDC; Fake.WETH_USDC] !! j = Some market' ->
              ~ has_token a market') ->
          balances !! a = Some ([5; 11] !! result_index k market a))
    /\ ([5; 11] = [] -> balances = ∅).
Proof.
  refine (@getBalances_shorter_answer_is_partial _ (Fake.node_answering (take 2))
            [Fake.MEGA_USDC; Fake.WETH_USDC] (Fake.start Fake.funded) [5; 11] _ _).
  - vm_compute; reflexivity.
  - cbn; lia.
Defined.

Lemma getBalances_odd_answer_stores_undefined_witness :
  exists balances : gmap string (option Z),
    @getBalances _ (Fake.node_answering (take 3))
      [Fake.MEGA_USDC; Fake.WETH_USDC] (Fake.start Fake.funded)
      = (Returned balances,
         record (EvMulticall
                   (@balance_calls _ (Fake.node_answering (take 3))
                      [Fake.MEGA_USDC; Fake.WETH_USDC]))
           (Fake.start Fake.funded))
    /\ balances !! "0xUSDC" = Some None.
Proof.
  refine (@getBalances_odd_answer_stores_undefined _ (Fake.node_answering (take 3))
            [Fake.MEGA_USDC; Fake.WETH_USDC] (Fake.start Fake.funded) [5; 11; 7]
            1%nat Fake.WETH_USDC _ eq_refl eq_refl).
  vm_compute; reflexivity.
Defined.

(** X14 on a buy bounded by zero. *)
Lemma falsy_maxPrice_runs_unbounded_witness :
  marketOrder (Fake.market_order buy (Some number_zero) true) (Fake.start Fake.trading)
  = marketOrder (with_maxPrice (Fake.market_order buy (Some number_zero) true) None)
      (Fake.start Fake.trading).
Proof.
  exact (falsy_maxPrice_runs_unbounded
           (Fake.market_order buy (Some number_zero) true) number_zero
           (Fake.start Fake.trading) eq_refl eq_refl).
Defined.

(** X15 at the price 100. *)
Lemma market_bound_is_limit_tick_witness :
  marketOrder_maxTick Fake.MEGA_USDC buy (Some Fake.price_100)
  = limitOrder_tick Fake.MEGA_USDC buy Fake.price_100.
Proof.
  exact (market_bound_is_limit_tick Fake.MEGA_USDC buy Fake.price_100 eq_refl).
Defined.


(** X17 on a limit order with nothing given, one with all given, and a node
    that cannot resolve the router. *)
Lemma limitOrder_asks_for_missing_defaults_witness :
  limitOrder_begin (Fake.limit_order sell Fake.price_100 false) (Fake.start Fake.routed)
  = (Returned Fake.empty_book,
     {| chain := Fake.routed;
        trace := [EvGetUserRouter Fake.account; EvGetBook Fake.MEGA_USDC 1;
                  EvMulticall [allowance "0xMEGA" Fake.account "0xROUTER"]] |})
  /\ limitOrder_begin (Fake.limit_order_given sell Fake.price_100 true)
       (Fake.start Fake.genesis)
     = (Returned Fake.empty_book, Fake.start Fake.genesis)
  /\ @limitOrder _ Fake.node_unrouted Fake.sdk
       (Fake.limit_order sell Fake.price_100 false) (Fake.start Fake.genesis)
     = (Thrown (RpcError "no router"),
        record (EvGetUserRouter Fake.account) (Fake.start Fake.genesis)).
Proof.
  split; [|split].
  - destruct (@limitOrder_asks_for_missing_defaults Fake.Ledger Fake.node Fake.sdk)
      as (Hfetched & _ & _).
    refine (Hfetched (Fake.limit_order sell Fake.price_100 false)
              (Fake.start Fake.routed) "0xROUTER" Fake.empty_book maxUint256
              eq_refl eq_refl eq_refl eq_refl eq_refl _ _).
    + vm_compute; reflexivity.
    + unfold maxUint128, maxUint256; lia.
  - destruct (@limitOrder_asks_for_missing_defaults Fake.Ledger Fake.node Fake.sdk)
      as (_ & Hgiven & _).
    exact (Hgiven (Fake.limit_order_given sell Fake.price_100 true)
             (Fake.start Fake.genesis) "0xROUTER" Fake.empty_book
             eq_refl eq_refl eq_refl).
  - destruct (@limitOrder_asks_for_missing_defaults Fake.Ledger Fake.node_unrouted
                Fake.sdk) as (_ & _ & Hfails).
    exact (Hfails (Fake.limit_order sell Fake.price_100 false)
             (Fake.start Fake.genesis) _ eq_refl eq_refl).
Defined.

(** X18 on an order sent to the ledger. *)
Lemma realtimeWriteContract_sends_what_was_prepared_witness :
  exists env,
    let req := {| to := mgvOrder params;
                  data := encodeFunctionData
                            (Fake.remove_call
                               {| ro_bs := buy; ro_offerId := 7;
                                  ro_deprovision := true |});
                  tx_value := None |} in
    let tx := {| signer := account_address;
                 signed := {| request := req; envelope := env |} |} in
    rpc_prepareTransactionRequest (chain (Fake.start Fake.trading)) req = Returned env
    /\ rpc_realtime_sendRawTransaction (chain (Fake.start Fake.trading)) tx
       = (Returned (Fake.receipt_of Fake.trading TxSuccess (Fake.emitted Fake.trading)
                      "retractOffer"),
          chain (snd (realtimeWriteContract (mgvOrder params)
                        (Fake.remove_call
                           {| ro_bs := buy; ro_offerId := 7; ro_deprovision := true |})
                        (Fake.start Fake.trading))))
    /\ trace (snd (realtimeWriteContract (mgvOrder params)
                     (Fake.remove_call
                        {| ro_bs := buy; ro_offerId := 7; ro_deprovision := true |})
                     (Fake.start Fake.trading)))
       = trace (Fake.start Fake.trading) ++ [EvPrepare req; EvSendRaw tx].
Proof.
  refine (realtimeWriteContract_sends_what_was_prepared (mgvOrder params)
            (Fake.remove_call {| ro_bs := buy; ro_offerId := 7; ro_deprovision := true |})
            (Fake.start Fake.trading) _ _ _).
  vm_compute; reflexivity.
Defined.

(** X19 on a buy with USDC approved. *)
Lemma marketOrder_goes_through_witness :
  marketOrder (Fake.market_order buy (Some Fake.price_100) false)
    (Fake.start Fake.settled)
  = (Returned (Fake.receipt_of Fake.settled TxSuccess (Fake.emitted Fake.settled)
                 "marketOrderByTick",
               {| takerGot := 0; takerGave := 0; feePaid := 0; bounty := 0 |}),
     {| chain := Fake.mined Fake.settled (Fake.allowances Fake.settled);
        trace := [EvMulticall [allowance "0xUSDC" Fake.account (mgv params)];
                  EvPrepare
                    (write_request (mgv params)
                       (Fake.market_call
                          (marketOrder_args
                             (Fake.market_order buy (Some Fake.price_100) false)
                             235688)));
                  EvSendRaw
                    (Fake.signed_at Fake.settled
                       (write_request (mgv params)
                          (Fake.market_call
                             (marketOrder_args
                                (Fake.market_order buy (Some Fake.price_100) false)
                                235688))));
                  EvDecode DecodeMarketOrder
                    (Fake.receipt_of Fake.settled TxSuccess
                       (Fake.emitted Fake.settled) "marketOrderByTick")] |}).
Proof.
  refine (marketOrder_goes_through (Fake.market_order buy (Some Fake.price_100) false)
            (Fake.start Fake.settled) 235688 maxUint256 _
            (Fake.envelope_at Fake.settled) _ _ _
            eq_refl eq_refl _ _ eq_refl eq_refl eq_refl eq_refl eq_refl).
  - vm_compute; reflexivity.
  - unfold maxUint128, maxUint256; lia.
Defined.

End Scenarios.
